(** * Crosshairs of the graph widget and the Win32 print bridge

    A shallow embedding of [generic/tko/tkoGraphHairs.c] (the XOR-drawn
    crosshairs of the rbc graph widget) and of [tkWinPrint.c] (the
    [_printcanvas] and [_printtext] commands), followed by the properties
    established about them.

    Conventions.  C [int], [short] and [LONG] values are carried in [Z];
    signed overflow is undefined in C and does not arise for the values the
    functions handle (widget coordinates, margins of a page, the length of
    a Tcl string).  The one place where the code computes with values it
    has no hold on, the font metrics and page counts of [WinTextPrint], is
    modelled with the partial operations of C: a sum, a difference or a
    quotient that is not an [int], and a zero divisor, have no defined
    result.  C [double] values are IEEE binary64 numbers, the primitive
    floats of the prover.  C truth values stored in [int] fields
    ([visible], [hidden]) that only ever hold [TRUE]/[FALSE] are carried in
    [bool].  A pointer that may be [NULL] is an [option].  Calls into Xlib
    and GDI are recorded, in program order, in a list of requests returned
    next to the result. *)

From Stdlib Require Import ZArith List Bool Ascii String Lia.
From Stdlib Require Floats Uint63.
Import ListNotations.
Open Scope Z_scope.

(** The standard Tcl completion codes used by both files. *)
Inductive TclStatus : Set := TCL_OK | TCL_ERROR.

(* ================================================================== *)
(** * Part I.  tkoGraphHairs.c                                          *)
(* ================================================================== *)

Module Hairs.

(** ** Xlib and Tk data *)

Record XPoint : Set := mkXPoint { x : Z; y : Z }.

Record XSegment : Set := mkXSegment { x1 : Z; y1 : Z; x2 : Z; y2 : Z }.

Record XColor : Set := mkXColor { pixel : Z }.

(** [RbcDashes]: the array of alternately drawn pixel counts. *)
Definition RbcDashes : Set := list Z.

Inductive GXFunction : Set := GXcopy | GXxor.

Inductive LineStyle : Set := LineSolid | LineOnOffDash.

(** A graphics context as [RbcGetPrivateGC] builds it from the value mask
    and [XGCValues]; [gc_line_style] is [None] when [GCLineStyle] is not in
    the mask, and [gc_dashes] is what [RbcSetDashes] stored, if called. *)
Record GC : Set := mkGC {
  gc_function   : GXFunction;
  gc_foreground : Z;
  gc_background : Z;
  gc_line_width : Z;
  gc_line_style : option LineStyle;
  gc_dashes     : option RbcDashes
}.

(** What the code reads of a [Tk_Window]. *)
Record TkWindow : Set := mkTkWindow {
  mapped      : bool;      (* Tk_IsMapped *)
  window_id   : Z;         (* Tk_WindowId *)
  tk_display  : Z;         (* Tk_Display *)
  white_pixel : Z          (* WhitePixelOfScreen(Tk_Screen(tkwin)) *)
}.

Definition Tk_IsMapped (tkwin : TkWindow) : bool := mapped tkwin.

(** ** struct RbcCrosshairs (lines 31-50) *)

Record RbcCrosshairs : Set := mkCrosshairs {
  hotSpot   : XPoint;
  visible   : bool;
  hidden    : bool;
  dashes    : RbcDashes;
  lineWidth : Z;
  segArr    : XSegment * XSegment;     (* segArr[0], segArr[1] *)
  colorPtr  : XColor;
  gc        : option GC
}.

(** The fields of [RbcGraph] the crosshair code reads.  [win] is a
    [Tk_Window *]: [None] is a null pointer, [Some None] a pointer to a
    null window. *)
Record RbcGraph : Set := mkGraph {
  win        : option (option TkWindow);
  display    : Z;
  left       : Z;
  right      : Z;
  top        : Z;
  bottom     : Z;
  plotBg     : option XColor;
  crosshairs : RbcCrosshairs
}.

(** One [XDrawSegments(display, drawable, gc, segs, 2)] call. *)
Record XRequest : Set := XDrawSegments {
  xd_display  : Z;
  xd_drawable : Z;
  xd_gc       : option GC;
  xd_segs     : XSegment * XSegment
}.

(** ** Field updates *)

Definition set_visible (v : bool) (c : RbcCrosshairs) : RbcCrosshairs :=
  mkCrosshairs (hotSpot c) v (hidden c) (dashes c) (lineWidth c)
               (segArr c) (colorPtr c) (gc c).

Definition set_hidden (h : bool) (c : RbcCrosshairs) : RbcCrosshairs :=
  mkCrosshairs (hotSpot c) (visible c) h (dashes c) (lineWidth c)
               (segArr c) (colorPtr c) (gc c).

Definition set_gc (g : option GC) (c : RbcCrosshairs) : RbcCrosshairs :=
  mkCrosshairs (hotSpot c) (visible c) (hidden c) (dashes c) (lineWidth c)
               (segArr c) (colorPtr c) g.

Definition set_segArr (s : XSegment * XSegment) (c : RbcCrosshairs)
  : RbcCrosshairs :=
  mkCrosshairs (hotSpot c) (visible c) (hidden c) (dashes c) (lineWidth c)
               s (colorPtr c) (gc c).

Definition set_crosshairs (c : RbcCrosshairs) (g : RbcGraph) : RbcGraph :=
  mkGraph (win g) (display g) (left g) (right g) (top g) (bottom g)
          (plotBg g) c.

Definition set_win (w : option (option TkWindow)) (g : RbcGraph) : RbcGraph :=
  mkGraph w (display g) (left g) (right g) (top g) (bottom g)
          (plotBg g) (crosshairs g).

Definition set_bounds (l r t b : Z) (g : RbcGraph) : RbcGraph :=
  mkGraph (win g) (display g) l r t b (plotBg g) (crosshairs g).

Definition set_plotBg (p : option XColor) (g : RbcGraph) : RbcGraph :=
  mkGraph (win g) (display g) (left g) (right g) (top g) (bottom g)
          p (crosshairs g).

(** [graph->win == NULL || *(graph->win) == NULL] is false exactly when
    this returns a window. *)
Definition the_window (graph : RbcGraph) : option TkWindow :=
  match win graph with
  | Some (Some tkwin) => Some tkwin
  | _ => None
  end.

(** ** TurnOffHairs (lines 138-148) *)

Definition TurnOffHairs (tkwin : TkWindow) (chPtr : RbcCrosshairs)
  : RbcCrosshairs * list XRequest :=
  if Tk_IsMapped tkwin && visible chPtr then
    (set_visible false chPtr,
     [XDrawSegments (tk_display tkwin) (window_id tkwin)
                    (gc chPtr) (segArr chPtr)])
  else (chPtr, []).

(** ** TurnOnHairs (lines 166-185) *)

(** The test of lines 176-179: the coordinates are off the graph. *)
Definition off_graph (graph : RbcGraph) (chPtr : RbcCrosshairs) : bool :=
  (x (hotSpot chPtr) >? right graph)
  || (x (hotSpot chPtr) <? left graph)
  || (y (hotSpot chPtr) >? bottom graph)
  || (y (hotSpot chPtr) <? top graph).

Definition TurnOnHairs (graph : RbcGraph) (chPtr : RbcCrosshairs)
  : RbcCrosshairs * list XRequest :=
  match the_window graph with
  | None => (chPtr, [])
  | Some tkwin =>
      if Tk_IsMapped tkwin && negb (visible chPtr) then
        if off_graph graph chPtr then (chPtr, [])
        else
          (set_visible true chPtr,
           [XDrawSegments (display graph) (window_id tkwin)
                          (gc chPtr) (segArr chPtr)])
      else (chPtr, [])
  end.

(** ** Options of the [configSpecs] table (lines 59-75)

    Modelled from the spec: [Tk_ConfigureWidget] and
    [RbcConfigureWidgetComponent] are not part of these sources.  Their
    effect on the record is the set of option values they store; a parsing
    failure is reported "without mutating prior state".  [None] in a field
    means the option was not given. *)
Record HairsOptions : Set := mkOptions {
  opt_color     : option XColor;     (* -color     *)
  opt_dashes    : option RbcDashes;  (* -dashes    *)
  opt_hide      : option bool;       (* -hide      *)
  opt_linewidth : option Z;          (* -linewidth *)
  opt_position  : option XPoint      (* -position  *)
}.

Definition or_else {A : Type} (o : option A) (d : A) : A :=
  match o with Some a => a | None => d end.

Definition store_options (o : HairsOptions) (c : RbcCrosshairs)
  : RbcCrosshairs :=
  mkCrosshairs (or_else (opt_position o) (hotSpot c))
               (visible c)
               (or_else (opt_hide o) (hidden c))
               (or_else (opt_dashes o) (dashes c))
               (or_else (opt_linewidth o) (lineWidth c))
               (segArr c)
               (or_else (opt_color o) (colorPtr c))
               (gc c).

(** What a [configure] command line amounts to: the argument count, the
    status a query through [Tk_ConfigureInfo] returns, and the outcome of
    [Tk_ConfigureWidget] on [argv + 3] ([None]: [TCL_ERROR]). *)
Record ConfigureArgs : Set := mkArgs {
  argc        : Z;
  info_status : TclStatus;
  parsed      : option HairsOptions
}.

Section Operations.

(** The macros [RbcLineWidth] and [RbcLineIsDashed] come from a header
    that is not part of these sources; the operations are parametric in
    them. *)
Variable RbcLineWidth : Z -> Z.
Variable RbcLineIsDashed : RbcDashes -> bool.

(** ** RbcConfigureCrosshairs (lines 204-261) *)

Definition crosshairs_gc (graph : RbcGraph) (tkwin : TkWindow)
           (chPtr : RbcCrosshairs) : GC :=
  let colorValue :=
    match plotBg graph with
    | None => white_pixel tkwin
    | Some bg => pixel bg
    end in
  let dashed := RbcLineIsDashed (dashes chPtr) in
  mkGC GXxor
       (Z.lxor colorValue (pixel (colorPtr chPtr)))
       colorValue
       (RbcLineWidth (lineWidth chPtr))
       (if dashed then Some LineOnOffDash else None)
       (if dashed then Some (dashes chPtr) else None).

(** Lines 251-256. *)
Definition crosshairs_segments (graph : RbcGraph) (chPtr : RbcCrosshairs)
  : XSegment * XSegment :=
  (mkXSegment (x (hotSpot chPtr)) (bottom graph)
              (x (hotSpot chPtr)) (top graph),
   mkXSegment (left graph) (y (hotSpot chPtr))
              (right graph) (y (hotSpot chPtr))).

Definition RbcConfigureCrosshairs (graph : RbcGraph)
  : RbcGraph * list XRequest :=
  match the_window graph with
  | None => (graph, [])
  | Some tkwin =>
      let chPtr := crosshairs graph in
      let '(chPtr, erased) := TurnOffHairs tkwin chPtr in
      let chPtr := set_gc (Some (crosshairs_gc graph tkwin chPtr)) chPtr in
      let chPtr := set_segArr (crosshairs_segments graph chPtr) chPtr in
      if negb (hidden chPtr) then
        let '(chPtr, drawn) := TurnOnHairs graph chPtr in
        (set_crosshairs chPtr graph, erased ++ drawn)
      else (set_crosshairs chPtr graph, erased)
  end.

(** ** RbcEnableCrosshairs (lines 278-285) *)

Definition RbcEnableCrosshairs (graph : RbcGraph)
  : RbcGraph * list XRequest :=
  if negb (hidden (crosshairs graph)) then
    let '(chPtr, drawn) := TurnOnHairs graph (crosshairs graph) in
    (set_crosshairs chPtr graph, drawn)
  else (graph, []).

(** ** RbcDisableCrosshairs (lines 302-311) *)

Definition RbcDisableCrosshairs (graph : RbcGraph)
  : RbcGraph * list XRequest :=
  match the_window graph with
  | None => (graph, [])
  | Some tkwin =>
      if negb (hidden (crosshairs graph)) then
        let '(chPtr, erased) := TurnOffHairs tkwin (crosshairs graph) in
        (set_crosshairs chPtr graph, erased)
      else (graph, [])
  end.

(** ** RbcUpdateCrosshairs (lines 328-338) *)

Definition RbcUpdateCrosshairs (graph : RbcGraph) : RbcGraph * list XRequest :=
  let chPtr := crosshairs graph in
  let s0 := fst (segArr chPtr) in
  let s1 := snd (segArr chPtr) in
  let s0 := mkXSegment (x1 s0) (bottom graph) (x2 s0) (top graph) in
  let s1 := mkXSegment (left graph) (y1 s1) (right graph) (y2 s1) in
  (set_crosshairs (set_segArr (s0, s1) chPtr) graph, []).

(** ** RbcCreateCrosshairs (lines 384-404)

    [chPtr] is zero-filled by [RbcCalloc], then [hidden] and the hot spot
    are set; [init] is what [RbcConfigureWidgetComponent] stores from the
    option database ([None]: it failed), [color] the colour it allocates
    for [-color] when the database names none. *)
Definition RbcCreateCrosshairs (graph : RbcGraph) (color : XColor)
           (init : option HairsOptions) : option RbcGraph :=
  match the_window graph with
  | None => None
  | Some _ =>
      let zero := mkXSegment 0 0 0 0 in
      let chPtr :=
        mkCrosshairs (mkXPoint (-1) (-1)) false true [] 0
                     (zero, zero) color None in
      match init with
      | None => None
      | Some o => Some (set_crosshairs (store_options o chPtr) graph)
      end
  end.

(** ** ConfigureOp (lines 453-477) *)

Definition ConfigureOp (graph : RbcGraph) (args : ConfigureArgs)
  : RbcGraph * TclStatus * list XRequest :=
  match the_window graph with
  | None => (graph, TCL_ERROR, [])
  | Some _ =>
      if (argc args =? 3) || (argc args =? 4) then
        (graph, info_status args, [])
      else
        match parsed args with
        | None => (graph, TCL_ERROR, [])
        | Some o =>
            let graph :=
              set_crosshairs (store_options o (crosshairs graph)) graph in
            let '(graph, reqs) := RbcConfigureCrosshairs graph in
            (graph, TCL_OK, reqs)
        end
  end.

(** ** OnOp (lines 494-508) *)

Definition OnOp (graph : RbcGraph) : RbcGraph * TclStatus * list XRequest :=
  let chPtr := crosshairs graph in
  if hidden chPtr then
    let '(chPtr, drawn) := TurnOnHairs graph chPtr in
    (set_crosshairs (set_hidden false chPtr) graph, TCL_OK, drawn)
  else (graph, TCL_OK, []).

(** ** OffOp (lines 525-541) *)

Definition OffOp (graph : RbcGraph) : RbcGraph * TclStatus * list XRequest :=
  let chPtr := crosshairs graph in
  match the_window graph with
  | None => (graph, TCL_ERROR, [])
  | Some tkwin =>
      if negb (hidden chPtr) then
        let '(chPtr, erased) := TurnOffHairs tkwin chPtr in
        (set_crosshairs (set_hidden true chPtr) graph, TCL_OK, erased)
      else (graph, TCL_OK, [])
  end.

(** ** ToggleOp (lines 558-576) *)

Definition ToggleOp (graph : RbcGraph)
  : RbcGraph * TclStatus * list XRequest :=
  let chPtr := crosshairs graph in
  match the_window graph with
  | None => (graph, TCL_ERROR, [])
  | Some tkwin =>
      let chPtr := set_hidden (negb (hidden chPtr)) chPtr in
      let '(chPtr, reqs) :=
        if hidden chPtr then TurnOffHairs tkwin chPtr
        else TurnOnHairs graph chPtr in
      (set_crosshairs chPtr graph, TCL_OK, reqs)
  end.

(** ** Histories

    What can happen to a graph between two moments of rest: one of the
    crosshair operations, or a change made by the rest of the widget (Tk
    maps, unmaps, creates or destroys the window; the layout moves the
    plot area; the plot background is set). *)
Inductive Event : Set :=
| Configure (args : ConfigureArgs)     (* crosshairs configure ... *)
| Reconfigure                          (* RbcConfigureCrosshairs   *)
| Enable                               (* RbcEnableCrosshairs      *)
| Disable                              (* RbcDisableCrosshairs     *)
| Update                               (* RbcUpdateCrosshairs      *)
| On                                   (* crosshairs on            *)
| Off                                  (* crosshairs off           *)
| Toggle                               (* crosshairs toggle        *)
| WindowChanged (w : option (option TkWindow))
| LayoutChanged (l r t b : Z)
| BackgroundChanged (bg : option XColor).

Definition is_operation (e : Event) : bool :=
  match e with
  | WindowChanged _ | LayoutChanged _ _ _ _ | BackgroundChanged _ => false
  | _ => true
  end.

Definition step (e : Event) (graph : RbcGraph) : RbcGraph * list XRequest :=
  match e with
  | Configure args =>
      let '(g, _, r) := ConfigureOp graph args in (g, r)
  | Reconfigure => RbcConfigureCrosshairs graph
  | Enable => RbcEnableCrosshairs graph
  | Disable => RbcDisableCrosshairs graph
  | Update => RbcUpdateCrosshairs graph
  | On => let '(g, _, r) := OnOp graph in (g, r)
  | Off => let '(g, _, r) := OffOp graph in (g, r)
  | Toggle => let '(g, _, r) := ToggleOp graph in (g, r)
  | WindowChanged w => (set_win w graph, [])
  | LayoutChanged l r t b => (set_bounds l r t b graph, [])
  | BackgroundChanged bg => (set_plotBg bg graph, [])
  end.

Fixpoint run (es : list Event) (graph : RbcGraph)
  : RbcGraph * list XRequest :=
  match es with
  | [] => (graph, [])
  | e :: es' =>
      let '(g1, r1) := step e graph in
      let '(g2, r2) := run es' g1 in
      (g2, r1 ++ r2)
  end.

(** The window is mapped. *)
Definition window_mapped (graph : RbcGraph) : bool :=
  match the_window graph with
  | Some tkwin => Tk_IsMapped tkwin
  | None => false
  end.

(** A history keeps the window while the hairs are shown when no
    [WindowChanged] event takes a mapped window away from a graph whose
    crosshairs are marked [visible]. *)
Definition keeps_window (e : Event) (graph : RbcGraph) : bool :=
  match e with
  | WindowChanged w =>
      negb (visible (crosshairs graph)) || window_mapped (set_win w graph)
  | _ => true
  end.

Fixpoint shown_on_window (es : list Event) (graph : RbcGraph) : bool :=
  match es with
  | [] => true
  | e :: es' =>
      keeps_window e graph && shown_on_window es' (fst (step e graph))
  end.

End Operations.

End Hairs.

(* ================================================================== *)
(** * Part II.  tkWinPrint.c                                            *)
(* ================================================================== *)

Module WinPrint.

(** ** GDI resources and the calls recorded *)

(** The handles the two commands obtain. *)
Inductive Handle : Set :=
| WindowDC        (* hDC of the window, TkWinGetDrawableDC            *)
| Bitmap          (* hBitmap, CreateDIBSection                         *)
| MemoryDC        (* memDC, CreateCompatibleDC                         *)
| Palette         (* hPalette, CreatePalette                           *)
| PrinterDC       (* pd.hDC, returned by PrintDlg with PD_RETURNDC     *)
| DesktopDC       (* GetDC(NULL) in WinGetSystemPalette                *)
| PaletteMemory.  (* GlobalAlloc in WinGetSystemPalette                *)

Definition Handle_eqb (a b : Handle) : bool :=
  match a, b with
  | WindowDC, WindowDC | Bitmap, Bitmap | MemoryDC, MemoryDC
  | Palette, Palette | PrinterDC, PrinterDC | DesktopDC, DesktopDC
  | PaletteMemory, PaletteMemory => true
  | _, _ => false
  end.

Definition all_handles : list Handle :=
  [WindowDC; Bitmap; MemoryDC; Palette; PrinterDC; DesktopDC; PaletteMemory].

(** The calls with an effect outside the function, in program order.  A
    call that obtains a handle is recorded as [Open] when the handle it
    returns is not [NULL]; a call that releases one as [Close] when the
    handle passed is not [NULL]. *)
Inductive Call : Set :=
| Open (h : Handle)
| Close (h : Handle)
| WrongNumArgs (msg : string)          (* Tcl_WrongNumArgs                *)
| AppendResult (msg : string)          (* Tcl_AppendResult                *)
| MakeWindowExist                      (* Tk_MakeWindowExist              *)
| SelectPalettes                       (* SelectPalette / RealizePalette  *)
| BitBlt
| GetObject
| PrintDlg
| StartDoc
| StartPage
| StretchDIBits
| SetMapMode
| SelectFont                           (* SelectObject(hDC, hFont)        *)
| MeasureText (begin count : Z)        (* DrawText with DT_CALCRECT       *)
| DrawText (begin count : Z)           (* DrawText onto the page          *)
| EndPage
| EndDoc.

Definition opens (h : Handle) (c : Call) : bool :=
  match c with Open h' => Handle_eqb h h' | _ => false end.

Definition closes (h : Handle) (c : Call) : bool :=
  match c with Close h' => Handle_eqb h h' | _ => false end.

Definition times_opened (h : Handle) (log : list Call) : nat :=
  List.length (filter (opens h) log).

Definition times_closed (h : Handle) (log : list Call) : nat :=
  List.length (filter (closes h) log).

(** The handles obtained more often than released. *)
Definition leaked (log : list Call) : list Handle :=
  filter (fun h => Nat.ltb (times_closed h log) (times_opened h log))
         all_handles.

(** The text left in the interpreter result. *)
Fixpoint messages (log : list Call) : list string :=
  match log with
  | [] => []
  | WrongNumArgs m :: l | AppendResult m :: l => m :: messages l
  | _ :: l => messages l
  end.

Definition is_draw (c : Call) : bool :=
  match c with DrawText _ _ => true | _ => false end.

(** ** What the system answers *)

Inductive Cap : Set :=
| HORZRES | VERTRES | LOGPIXELSX | LOGPIXELSY
| PHYSICALOFFSETX | PHYSICALOFFSETY | PHYSICALWIDTH | PHYSICALHEIGHT.

(** What Tk knows of the window named on the command line. *)
Record Window : Set := mkWindow {
  has_id : bool;        (* Tk_WindowId(tkwin) != None *)
  Tk_Width : Z;
  Tk_Height : Z
}.

(** The answers of Tk and Win32 during one command.  Results that the
    code tests are given as the C value returned; handles as [true] when
    not [NULL].  [StartPage_ret] and [EndPage_ret] are indexed by the
    page variable of the text command (the single page of a canvas job is
    asked for at index 0), the two [DrawText] answers by the offset of
    [begin_text] in the buffer and the character count. *)
Record Win32 : Type := mkWin32 {
  Tk_NameToWindow      : string -> option Window;
  CreateDIBSection_ok  : bool;
  CreateCompatibleDC_ok : bool;
  RC_PALETTE_set       : bool;       (* GetDeviceCaps(hDC, RASTERCAPS) & RC_PALETTE *)
  CreatePalette_ok     : bool;
  BitBlt_ok            : bool;
  GetObject_ret        : Z;
  PrintDlg_ok          : bool;       (* PrintDlg(&pd) == TRUE *)
  pd_hDC               : bool;       (* pd.hDC != NULL *)
  pd_nMinPage          : Z;
  GetDeviceCaps        : Cap -> Z;   (* on the printer DC *)
  tmHeight             : Z;
  tmExternalLeading    : Z;
  tmAveCharWidth       : Z;
  MulDiv               : Z -> Z -> Z -> Z;
  StartDoc_ret         : Z;
  StartPage_ret        : Z -> Z;
  MeasureText_ret      : Z -> Z -> Z;
  DrawText_ret         : Z -> Z -> Z;
  EndPage_ret          : Z -> Z
}.

(** ** Control flow

    A computation logs calls and either goes on with a value, leaves the
    function with a status ([return], or the end of the [done:] block),
    has no defined behaviour (an integer division by zero, an integer
    result that is not an [int]), or is cut off by the bound on loop
    iterations. *)
Inductive Flow (A : Type) : Type :=
| Go (a : A)
| Return (status : TclStatus)
| Undefined
| Timeout.

Arguments Go {A} a.
Arguments Return {A} status.
Arguments Undefined {A}.
Arguments Timeout {A}.

Definition M (A : Type) : Type := Flow A * list Call.

Definition ret {A : Type} (a : A) : M A := (Go a, []).

Definition bind {A B : Type} (m : M A) (k : A -> M B) : M B :=
  match m with
  | (Go a, l) => let '(f, l') := k a in (f, l ++ l')
  | (Return s, l) => (Return s, l)
  | (Undefined, l) => (Undefined, l)
  | (Timeout, l) => (Timeout, l)
  end.

Declare Scope print_scope.
Delimit Scope print_scope with print.

Notation "x <- m ;; k" := (bind m (fun x => k))
  (at level 61, m at next level, right associativity) : print_scope.
Notation "m ;; k" := (bind m (fun _ => k))
  (at level 61, right associativity) : print_scope.

Local Open Scope print_scope.

Definition call (c : Call) : M unit := (Go tt, [c]).

Definition answer {A : Type} (c : Call) (a : A) : M A := (Go a, [c]).

Definition leave {A : Type} (s : TclStatus) : M A := (Return s, []).

Definition when (b : bool) (m : M unit) : M unit := if b then m else ret tt.

(** ** Arithmetic of C

    The range of a 32-bit [int]. *)
Definition INT_MIN : Z := -2147483648.

Definition INT_MAX : Z := 2147483647.

Definition is_int (v : Z) : bool := (INT_MIN <=? v) && (v <=? INT_MAX).

(** The result of an operation on [int]s whose mathematical value is
    [v]: undefined when [v] is not an [int]. *)
Definition c_int (v : Z) : M Z :=
  if is_int v then ret v else (Undefined, []).

Definition c_add (a b : Z) : M Z := c_int (a + b).

Definition c_sub (a b : Z) : M Z := c_int (a - b).

(** C integer division: truncation toward zero, undefined for a zero
    divisor and when the quotient is not an [int] ([INT_MIN / -1]). *)
Definition c_div (a b : Z) : M Z :=
  if b =? 0 then (Undefined, []) else c_int (Z.quot a b).

(** [(double)z] for an [int] [z]: exact, every [int] being a binary64
    number. *)
Definition int_to_double (z : Z) : PrimFloat.float :=
  if z <? 0 then PrimFloat.opp (PrimFloat.of_uint63 (Uint63.of_Z (- z)))
  else PrimFloat.of_uint63 (Uint63.of_Z z).

(** The number a finite [double] stands for, as a fraction: the
    numerator, and a denominator that is a power of two.  A double of
    sign [s], mantissa [m] and exponent [e] stands for [m * 2^e], negated
    when [s] is set. *)
Definition double_value (f : PrimFloat.float) : option (Z * Z) :=
  match FloatOps.Prim2SF f with
  | SpecFloat.S754_zero _ => Some (0, 1)
  | SpecFloat.S754_finite s m e =>
      let n := if s then Z.neg m else Z.pos m in
      Some (if 0 <=? e then (n * 2 ^ e, 1) else (n, 2 ^ (- e)))
  | SpecFloat.S754_infinity _ | SpecFloat.S754_nan => None
  end.

(** The conversion of a [double] to [int], as it happens when a [double]
    is passed for an [int] parameter: the fractional part is discarded
    (truncation toward zero); the conversion of a NaN, of an infinity and
    of a value whose integral part is not an [int] is undefined
    ([None]). *)
Definition double_to_int (f : PrimFloat.float) : option Z :=
  match double_value f with
  | Some (n, d) => if is_int (Z.quot n d) then Some (Z.quot n d) else None
  | None => None
  end.

(** [fmin] of <math.h>: the smaller argument, and the other argument
    when one is a NaN. *)
Definition fmin (x y : PrimFloat.float) : PrimFloat.float :=
  if PrimFloat.is_nan x then y
  else if PrimFloat.is_nan y then x
  else if PrimFloat.ltb y x then y else x.

(** The status with which the function returns, if it does. *)
Definition status {A : Type} (m : M A) : Flow A := fst m.

Definition calls {A : Type} (m : M A) : list Call := snd m.

(** The value a computation goes on with, if it does. *)
Definition value {A : Type} (m : M A) : option A :=
  match fst m with
  | Go a => Some a
  | _ => None
  end.

Section Commands.

Variable W : Win32.

(** ** WinGetSystemPalette (lines 45-68)

    Returns whether [hPalette] is not [NULL]. *)
Definition WinGetSystemPalette : M bool :=
  call (Open DesktopDC) ;;
  hPalette <-
    (if RC_PALETTE_set W then
       call (Open PaletteMemory) ;;
       hPalette <- (when (CreatePalette_ok W) (call (Open Palette)) ;;
                    ret (CreatePalette_ok W)) ;;
       call (Close PaletteMemory) ;;
       ret hPalette
     else ret false) ;;
  call (Close DesktopDC) ;;
  ret hPalette.

(** ** WinCanvasPrint (lines 84-215)

    The block behind the [done:] label (lines 202-210), reached by
    [goto done] and by falling through; the function then returns
    [result] (line 214). *)
Definition canvas_done (hPalette : bool) (result : TclStatus) : M TclStatus :=
  when (CreateDIBSection_ok W) (call (Close Bitmap)) ;;
  when (CreateCompatibleDC_ok W) (call (Close MemoryDC)) ;;
  call (Close WindowDC) ;;
  when hPalette (call (Close Palette)) ;;
  leave result.

(** The destination size handed to [StretchDIBits] is not part of the
    recorded call; it is computed by [stretch_destination] below. *)
Definition WinCanvasPrint (objc : Z) (path : string) : M TclStatus :=
  if objc <? 2 then
    call (WrongNumArgs "window") ;; leave TCL_ERROR
  else
    match Tk_NameToWindow W path with
    | None => leave TCL_ERROR
    | Some tkwin =>
        when (negb (has_id tkwin)) (call MakeWindowExist) ;;
        let result := TCL_ERROR in
        call (Open WindowDC) ;;
        when (CreateDIBSection_ok W) (call (Open Bitmap)) ;;
        when (CreateCompatibleDC_ok W) (call (Open MemoryDC)) ;;
        hPalette <- WinGetSystemPalette ;;
        when hPalette (call SelectPalettes) ;;
        call BitBlt ;;
        if negb (BitBlt_ok W) then
          call (AppendResult "can't blit") ;; canvas_done hPalette result
        else
          call GetObject ;;
          if GetObject_ret W =? 0 then
            call (AppendResult "can't get DIB object") ;;
            canvas_done hPalette result
          else
            call PrintDlg ;;
            if PrintDlg_ok W then
              when (pd_hDC W) (call (Open PrinterDC)) ;;
              if negb (pd_hDC W) then
                call (AppendResult "can't allocate printer DC") ;;
                canvas_done hPalette result
              else
                jobId <- answer StartDoc (StartDoc_ret W) ;;
                if jobId <=? 0 then
                  call (AppendResult "can't start document") ;;
                  canvas_done hPalette result
                else
                  output <- answer StartPage (StartPage_ret W 0) ;;
                  if output <=? 0 then
                    call (AppendResult "error starting page") ;;
                    canvas_done hPalette result
                  else
                    call StretchDIBits ;;
                    call EndPage ;;
                    call EndDoc ;;
                    call (Close PrinterDC) ;;
                    let result := TCL_OK in
                    canvas_done hPalette result
            else
              leave TCL_ERROR
    end.

(** Lines 173-177: the scale factors along both axes, the factor used
    and the size of the picture on the page, all of type [double]. *)
Definition sx (tkwin : Window) : PrimFloat.float :=
  PrimFloat.div (int_to_double (GetDeviceCaps W HORZRES))
                (int_to_double (Tk_Width tkwin)).

Definition sy (tkwin : Window) : PrimFloat.float :=
  PrimFloat.div (int_to_double (GetDeviceCaps W VERTRES))
                (int_to_double (Tk_Height tkwin)).

Definition scale (tkwin : Window) : PrimFloat.float :=
  fmin (sx tkwin) (sy tkwin).

Definition pageWidth (tkwin : Window) : PrimFloat.float :=
  PrimFloat.mul (scale tkwin) (int_to_double (Tk_Width tkwin)).

Definition pageHeight (tkwin : Window) : PrimFloat.float :=
  PrimFloat.mul (scale tkwin) (int_to_double (Tk_Height tkwin)).

(** Lines 194-196: the width and the height of the destination rectangle
    of [StretchDIBits], two [int] parameters that are given [pageWidth]
    and [pageHeight]. *)
Definition stretch_destination (tkwin : Window) : option Z * option Z :=
  (double_to_int (pageWidth tkwin), double_to_int (pageHeight tkwin)).

(** ** WinTextPrint (lines 231-442) *)

Definition newline : Ascii.ascii := Ascii.ascii_of_nat 10.

(** Lines 287-292. *)
Fixpoint count_newlines (data : string) : Z :=
  match data with
  | EmptyString => 0
  | String c rest =>
      (if Ascii.eqb c newline then 1 else 0) + count_newlines rest
  end.

(** Lines 317-352: the print area, from the device capabilities. *)
Definition page_size : Z * Z :=
  let dpi_x := GetDeviceCaps W LOGPIXELSX in
  let dpi_y := GetDeviceCaps W LOGPIXELSY in
  let margin_left := GetDeviceCaps W PHYSICALOFFSETX in
  let margin_top := GetDeviceCaps W PHYSICALOFFSETY in
  let printarea_horz := GetDeviceCaps W HORZRES in
  let printarea_vert := GetDeviceCaps W VERTRES in
  let phys_width := GetDeviceCaps W PHYSICALWIDTH in
  let phys_height := GetDeviceCaps W PHYSICALHEIGHT in
  let margin_right := phys_width - printarea_horz - margin_left in
  let margin_bottom := phys_height - printarea_vert - margin_top in
  let digital_margin_left := MulDiv W margin_left dpi_x 1000 in
  let digital_margin_top := MulDiv W margin_top dpi_y 1000 in
  let digital_margin_right := MulDiv W margin_right dpi_x 1000 in
  let digital_margin_bottom := MulDiv W margin_bottom dpi_y 1000 in
  let left_adjust_margin := digital_margin_left - margin_left in
  let top_adjust_margin := digital_margin_top - margin_top in
  let right_adjust_margin := digital_margin_right - margin_right in
  let bottom_adjust_margin := digital_margin_bottom - margin_bottom in
  let page_width :=
    printarea_horz - (left_adjust_margin + right_adjust_margin) in
  let page_height :=
    printarea_vert - (top_adjust_margin + bottom_adjust_margin) in
  (page_width, page_height).

Definition page_width : Z := fst page_size.
Definition page_height : Z := snd page_size.

Record RECT : Set := mkRECT {
  rect_left : Z; rect_top : Z; rect_right : Z; rect_bottom : Z
}.

(** Lines 373-377. *)
Definition page_rect : RECT :=
  mkRECT 100 100 (page_width - 100) (page_height - 100).

(** The body of the [while] loop of lines 404-416, up to its [break]:
    one measurement of [textcount] characters from [begin_text], then the
    adjustment of the range and of [textcount]. *)
Definition fit_probe (r : RECT) (begin_text : Z)
           (textrange_low textrange_high textcount : Z) : M (Z * Z * Z) :=
  testheight <- answer (MeasureText begin_text textcount)
                       (MeasureText_ret W begin_text textcount) ;;
  let textrange_low :=
    if testheight <? rect_bottom r then textcount else textrange_low in
  let textrange_high :=
    if testheight >? rect_bottom r then textcount else textrange_high in
  let textrange_low :=
    if textrange_low =? textrange_high - 1 then textrange_high
    else textrange_low in
  let textcount :=
    if textrange_low <? textrange_high
    then textrange_low + Z.quot (textrange_high - textrange_low) 2
    else textcount in
  ret (textrange_low, textrange_high, textcount).

(** The [while] loop itself: the [break] of line 415 is the last
    statement of the body, so the loop is left after the first pass. *)
Definition fit_search (r : RECT) (begin_text : Z)
           (textrange_low textrange_high textcount : Z) : M (Z * Z * Z) :=
  if textrange_low <? textrange_high then
    fit_probe r begin_text textrange_low textrange_high textcount
  else ret (textrange_low, textrange_high, textcount).

(** The [for] loop of lines 387-434.  [text_done] is also the offset of
    [begin_text] in the buffer, as both advance by [textcount].  [n]
    bounds the number of pages. *)
Fixpoint print_pages (n : nat) (printlen : Z) (r : RECT)
         (page output text_done : Z) : M unit :=
  if (output >=? 0) && (text_done <? printlen) then
    match n with
    | O => (Timeout, [])
    | S n' =>
        let textrange_low := 0 in
        let textrange_high := printlen - text_done in
        let textcount := textrange_high in
        output <- answer StartPage (StartPage_ret W page) ;;
        if output =? 0 then
          call (AppendResult "unable to start page") ;; leave TCL_ERROR
        else
          call SetMapMode ;;
          call SelectFont ;;
          found <- fit_search r text_done
                              textrange_low textrange_high textcount ;;
          let textcount := snd found in
          output <- answer (DrawText text_done textcount)
                           (DrawText_ret W text_done textcount) ;;
          if output =? 0 then
            call (AppendResult "unable to draw text") ;; leave TCL_ERROR
          else
            let text_done := text_done + textcount in
            output <- answer EndPage (EndPage_ret W page) ;;
            if output =? 0 then
              call (AppendResult "unable to end page") ;; leave TCL_ERROR
            else
              print_pages n' printlen r (page + 1) output text_done
    end
  else ret tt.

(** Lines 287-305: the lines of the text, the height of a character, the
    characters per line, the lines per page and the number of pages.  None
    of them is used afterwards. *)
Definition page_count (data : string) : M Z :=
  let countlines := count_newlines data in
  yChar <- c_add (tmHeight W) (tmExternalLeading W) ;;
  chars_per_line <- c_div (GetDeviceCaps W HORZRES) (tmAveCharWidth W) ;;
  lines_per_page <- c_div (GetDeviceCaps W VERTRES) yChar ;;
  lines <- c_add countlines lines_per_page ;;
  lines <- c_sub lines 1 ;;
  c_div lines lines_per_page.

Definition WinTextPrint (objc : Z) (data : string) : M TclStatus :=
  let result := TCL_OK in
  if negb (objc =? 2) then
    call (WrongNumArgs "text") ;; leave TCL_ERROR
  else
    call PrintDlg ;;
    if PrintDlg_ok W then
      when (pd_hDC W) (call (Open PrinterDC)) ;;
      if negb (pd_hDC W) then
        call (AppendResult "can't allocate printer DC") ;; leave TCL_ERROR
      else
        total_pages <- page_count data ;;
        let bufferlen := Z.of_nat (String.length data) in
        let printlen := bufferlen in
        let text_done := 0 in
        output <- answer StartDoc (StartDoc_ret W) ;;
        if output =? 0 then
          call (AppendResult "unable to start document") ;; leave TCL_ERROR
        else
          print_pages (String.length data) printlen page_rect
                      (pd_nMinPage W) output text_done ;;
          call EndDoc ;;
          call (Close PrinterDC) ;;
          let result := TCL_OK in
          leave result
    else
      leave result.

End Commands.

End WinPrint.

(* ================================================================== *)
(** * Part III.  Concrete graphs, devices and texts                     *)
(* ================================================================== *)

Module Samples.

Import Hairs.

(** The two macros as the BLT family of widgets defines them. *)
Definition line_width (w : Z) : Z := if w >? 1 then w else 0.

Definition is_dashed (d : RbcDashes) : bool :=
  match d with
  | v :: _ => negb (v =? 0)
  | [] => false
  end.

Definition shown_window : TkWindow := mkTkWindow true 42 1 16777215.

Definition withdrawn_window : TkWindow := mkTkWindow false 42 1 16777215.

(** A graph whose plot area is the rectangle 10..200 by 10..100, with
    crosshairs as [RbcCreateCrosshairs] leaves them. *)
Definition fresh_hairs : RbcCrosshairs :=
  mkCrosshairs (mkXPoint (-1) (-1)) false true [] 0
               (mkXSegment 0 0 0 0, mkXSegment 0 0 0 0) (mkXColor 0) None.

Definition graph_on (w : option (option TkWindow)) : RbcGraph :=
  mkGraph w 1 10 200 10 100 None fresh_hairs.

Definition no_option : HairsOptions := mkOptions None None None None None.

Definition at_position (px py : Z) : ConfigureArgs :=
  mkArgs 5 TCL_OK
         (Some (mkOptions None None None None (Some (mkXPoint px py)))).

(** The history behind the state in which the hairs are both suppressed
    and marked as drawn: placed on the plot, switched on, the window
    unmapped, switched off. *)
Definition withdrawn_history : list Event :=
  [Configure (at_position 50 50); On;
   WindowChanged (Some (Some withdrawn_window)); Off].

(** What follows when the window comes back: it is mapped, the graph is
    redrawn between a call of [RbcDisableCrosshairs] and a call of
    [RbcEnableCrosshairs] (neither does anything while the hairs are
    suppressed), and the user switches the hairs on and off again. *)
Definition remapped_history : list Event :=
  [WindowChanged (Some (Some shown_window)); Disable; Enable; On; Off].

(** A history during which the window is withdrawn only while the hairs
    are erased. *)
Definition kept_history : list Event :=
  [Configure (at_position 50 50); On; Off;
   WindowChanged (Some (Some withdrawn_window)); Toggle; Enable;
   WindowChanged (Some (Some shown_window)); Reconfigure; Update; Disable;
   Enable; Off].

Definition hairs_at (px py : Z) (v h : bool) : RbcCrosshairs :=
  mkCrosshairs (mkXPoint px py) v h [] 0
               (mkXSegment px 100 px 10, mkXSegment 10 py 200 py)
               (mkXColor 0) None.

Definition graph_with (c : RbcCrosshairs) : RbcGraph :=
  mkGraph (Some (Some shown_window)) 1 10 200 10 100 None c.

(** Hairs on the plot, enabled and already drawn. *)
Definition drawn_graph : RbcGraph := graph_with (hairs_at 50 50 true false).

(** Hairs enabled, with the hot spot to the right of the plot. *)
Definition off_plot_graph : RbcGraph :=
  graph_with (hairs_at 300 50 false false).

Import WinPrint.

(** [MulDiv(a, b, c)]: a * b / c rounded to the nearest integer, -1 when
    [c] is zero. *)
Definition mul_div (a b c : Z) : Z :=
  if c =? 0 then -1
  else Z.sgn (a * b) * Z.sgn c * ((Z.abs (a * b) + Z.abs c / 2) / Z.abs c).

(** A printer of 1000 dots per inch whose printable area, 4800 by 1200
    dots, is the whole sheet, with a fixed font 10 wide and 20 high. *)
Definition printer_caps (c : Cap) : Z :=
  match c with
  | HORZRES => 4800
  | VERTRES => 1200
  | LOGPIXELSX | LOGPIXELSY => 1000
  | PHYSICALOFFSETX | PHYSICALOFFSETY => 0
  | PHYSICALWIDTH => 4800
  | PHYSICALHEIGHT => 1200
  end.

(** The number of lines a text without line wrapping is laid out on. *)
Fixpoint text_lines (s : string) : Z :=
  match s with
  | EmptyString => 0
  | String c EmptyString => 1
  | String c rest =>
      (if Ascii.eqb c newline then 1 else 0) + text_lines rest
  end.

(** The height of [count] characters of [data] from [begin], 20 per
    line. *)
Definition layout_height (data : string) (begin count : Z) : Z :=
  20 * text_lines (substring (Z.to_nat begin) (Z.to_nat count) data).

Fixpoint short_lines (n : nat) : string :=
  match n with
  | O => EmptyString
  | S n' => String "a"%char (String newline (short_lines n'))
  end.

(** Two hundred lines of one letter each: 400 characters. *)
Definition long_text : string := short_lines 200.

Definition one_window (name : string) : option Window :=
  if String.eqb name ".c" then Some (mkWindow true 300 200) else None.


(** A system on which every call succeeds, printing [data]. *)
Definition working (data : string) : Win32 :=
  mkWin32 one_window true true true true true 1
          true true 1 printer_caps 20 0 10 mul_div
          1 (fun _ => 1) (layout_height data) (layout_height data)
          (fun _ => 1).

(** The same system when the print dialog does not return [TRUE]. *)
Definition no_dialog (data : string) : Win32 :=
  mkWin32 one_window true true true true true 1
          false false 1 printer_caps 20 0 10 mul_div
          1 (fun _ => 1) (layout_height data) (layout_height data)
          (fun _ => 1).

(** The same system when [StartDoc] and [EndPage] report failure with a
    negative value. *)
Definition failing_spooler (data : string) (start_doc end_page : Z)
  : Win32 :=
  mkWin32 one_window true true true true true 1
          true true 1 printer_caps 20 0 10 mul_div
          start_doc (fun _ => 1) (layout_height data) (layout_height data)
          (fun _ => end_page).

End Samples.

(* ================================================================== *)
(** * Part IV.  The properties as the design document words them        *)
(* ================================================================== *)

Module Stated.

Import Hairs.

(** "All operations are no-ops (not errors)": the command returns
    [TCL_OK], the graph is as before, nothing was sent to the server. *)
Definition no_op_success (graph : RbcGraph)
           (r : RbcGraph * TclStatus * list XRequest) : Prop :=
  r = (graph, TCL_OK, []).

(** "[hidden == true] must imply [visible == false] at rest". *)
Definition suppressed_not_drawn (graph : RbcGraph) : Prop :=
  hidden (crosshairs graph) = true -> visible (crosshairs graph) = false.

(** The hot spot lies strictly outside the plot bounds. *)
Definition outside_plot (graph : RbcGraph) : Prop :=
  x (hotSpot (crosshairs graph)) < left graph
  \/ right graph < x (hotSpot (crosshairs graph))
  \/ y (hotSpot (crosshairs graph)) < top graph
  \/ bottom graph < y (hotSpot (crosshairs graph)).

(** "Calling [enable()] twice in a row produces exactly one draw call",
    none when [hidden], and the state of a single call. *)
Definition enable_twice_draws_once (graph : RbcGraph) : Prop :=
  let '(g1, r1) := RbcEnableCrosshairs graph in
  let '(g2, r2) := RbcEnableCrosshairs g1 in
  g2 = g1
  /\ List.length (r1 ++ r2)
     = if hidden (crosshairs graph) then 0%nat else 1%nat.

(** The conditions under which [TurnOnHairs] sends the segments. *)
Definition can_draw (graph : RbcGraph) : bool :=
  window_mapped graph
  && negb (visible (crosshairs graph))
  && negb (off_graph graph (crosshairs graph)).

(** Hairs marked as drawn are on a mapped window and not suppressed. *)
Definition drawn_is_shown (graph : RbcGraph) : Prop :=
  visible (crosshairs graph) = true ->
  window_mapped graph = true /\ hidden (crosshairs graph) = false.

Import WinPrint.

(** [count] characters from offset [begin] fit the page when the height
    measured for them does not exceed the bottom of the page rectangle,
    the bound the search compares with. *)
Definition fits (W : Win32) (begin count : Z) : Prop :=
  MeasureText_ret W begin count <= rect_bottom (page_rect W).

(** "The printed width is scale*windowWidth and the printed height is
    scale*windowHeight and the aspect ratio of the window is preserved":
    the width and the height printed, those of the destination rectangle
    of [StretchDIBits], are the two products, and are to each other as
    the width of the window is to its height. *)
Definition scaled_exactly (W : Win32) (tkwin : Window) : Prop :=
  exists printed_width printed_height : Z,
    stretch_destination W tkwin = (Some printed_width, Some printed_height)
    /\ PrimFloat.eqb (int_to_double printed_width)
                     (PrimFloat.mul (scale W tkwin)
                                    (int_to_double (Tk_Width tkwin)))
       = true
    /\ PrimFloat.eqb (int_to_double printed_height)
                     (PrimFloat.mul (scale W tkwin)
                                    (int_to_double (Tk_Height tkwin)))
       = true
    /\ printed_width * Tk_Height tkwin = printed_height * Tk_Width tkwin.

(** "For a zero-length text buffer (after the print dialog succeeds),
    text-print starts the document, enters the page loop zero times, ends
    the document, and returns success." *)
Definition empty_text_succeeds (W : Win32) : Prop :=
  WinTextPrint W 2 EmptyString
  = (Return TCL_OK,
     [PrintDlg; Open PrinterDC; StartDoc; EndDoc; Close PrinterDC]).

End Stated.

(* ================================================================== *)
(** * Part IV-b.  What can be observed of a run                         *)
(* ================================================================== *)

Module Observed.

Import Hairs.

(** ** The screen under XOR drawing *)

(** What XOR drawing leaves on the plot: nothing, or one pair of hairs
    drawn with a graphics context. *)
Definition Picture : Set := option (option GC * (XSegment * XSegment)).

(** [xor_trace before reqs after]: starting from the picture [before],
    the requests [reqs] leave the picture [after], every request either
    drawing hairs on a clean plot or erasing exactly the hairs that are
    there (same context, same segments).  A request that would draw over
    hairs of another shape has no trace. *)
Inductive xor_trace : Picture -> list XRequest -> Picture -> Prop :=
| xor_done (p : Picture) : xor_trace p [] p
| xor_draw (d w : Z) (g : option GC) (sg : XSegment * XSegment)
           (l : list XRequest) (p : Picture) :
    xor_trace (Some (g, sg)) l p ->
    xor_trace None (XDrawSegments d w g sg :: l) p
| xor_erase (d w : Z) (g : option GC) (sg : XSegment * XSegment)
            (l : list XRequest) (p : Picture) :
    xor_trace None l p ->
    xor_trace (Some (g, sg)) (XDrawSegments d w g sg :: l) p.

(** The picture the record claims to be on the plot. *)
Definition shown (graph : RbcGraph) : Picture :=
  if visible (crosshairs graph)
  then Some (gc (crosshairs graph), segArr (crosshairs graph))
  else None.

(** The same with the place of the hairs: the display and the drawable
    the segments were sent to. *)
Record Hairs_on_screen : Set := mkOnScreen {
  on_display  : Z;
  on_drawable : Z;
  with_gc     : option GC;
  with_segs   : XSegment * XSegment
}.

Definition Screen : Set := option Hairs_on_screen.

(** [screen_trace before reqs after]: every request of [reqs] either
    draws hairs while there are none, or erases the hairs that are there,
    on the same display and the same drawable, with the same context and
    the same segments.  A request sent to another window, or with other
    segments, has no trace. *)
Inductive screen_trace : Screen -> list XRequest -> Screen -> Prop :=
| screen_done (p : Screen) : screen_trace p [] p
| screen_draw (d w : Z) (g : option GC) (sg : XSegment * XSegment)
              (l : list XRequest) (p : Screen) :
    screen_trace (Some (mkOnScreen d w g sg)) l p ->
    screen_trace None (XDrawSegments d w g sg :: l) p
| screen_erase (d w : Z) (g : option GC) (sg : XSegment * XSegment)
               (l : list XRequest) (p : Screen) :
    screen_trace None l p ->
    screen_trace (Some (mkOnScreen d w g sg)) (XDrawSegments d w g sg :: l) p.

(** What the record claims to be on the screen: the current hairs on the
    current window when [visible], nothing otherwise. *)
Definition on_screen (graph : RbcGraph) : Screen :=
  match the_window graph with
  | Some tkwin =>
      if visible (crosshairs graph)
      then Some (mkOnScreen (display graph) (window_id tkwin)
                            (gc (crosshairs graph))
                            (segArr (crosshairs graph)))
      else None
  | None => None
  end.

(** [graph->display] is the display of the window, as the widget sets it
    when it is created. *)
Definition same_display (graph : RbcGraph) : bool :=
  match the_window graph with
  | Some tkwin => tk_display tkwin =? display graph
  | None => true
  end.

(** Both graphs have a window, and it is the same drawable. *)
Definition same_drawable (g1 g2 : RbcGraph) : bool :=
  match the_window g1, the_window g2 with
  | Some w1, Some w2 => window_id w1 =? window_id w2
  | _, _ => false
  end.

(** The vertical hair stands at the abscissa of the hot spot and the
    horizontal hair at its ordinate. *)
Definition through_hot_spot (graph : RbcGraph) : Prop :=
  let c := crosshairs graph in
  x1 (fst (segArr c)) = x (hotSpot c)
  /\ x2 (fst (segArr c)) = x (hotSpot c)
  /\ y1 (snd (segArr c)) = y (hotSpot c)
  /\ y2 (snd (segArr c)) = y (hotSpot c).

(** ** Graphics contexts obtained and released *)

Inductive GCCall : Set :=
| GetPrivateGC (new : GC)      (* RbcGetPrivateGC, line 239          *)
| FreePrivateGC (old : GC).    (* RbcFreePrivateGC, lines 244 and 363 *)

Fixpoint obtained (l : list GCCall) : list GC :=
  match l with
  | [] => []
  | GetPrivateGC g :: l' => g :: obtained l'
  | FreePrivateGC _ :: l' => obtained l'
  end.

Fixpoint freed (l : list GCCall) : list GC :=
  match l with
  | [] => []
  | GetPrivateGC _ :: l' => freed l'
  | FreePrivateGC g :: l' => g :: freed l'
  end.

(** The context the record holds, if any. *)
Definition held (graph : RbcGraph) : list GC :=
  match gc (crosshairs graph) with
  | Some g => [g]
  | None => []
  end.

(** ** RbcDestroyCrosshairs (lines 355-366)

    The calls on graphics contexts; [Tk_FreeOptions] and [ckfree] release
    the option values and the record itself. *)
Definition RbcDestroyCrosshairs (graph : RbcGraph) : list GCCall :=
  match gc (crosshairs graph) with
  | Some old => [FreePrivateGC old]
  | None => []
  end.

Section Histories.

Variable RbcLineWidth : Z -> Z.
Variable RbcLineIsDashed : RbcDashes -> bool.

(** The calls on graphics contexts of [RbcConfigureCrosshairs] (lines
    239-246): a new context is obtained, the old one, if any, is freed. *)
Definition configure_gc_calls (graph : RbcGraph) : list GCCall :=
  match the_window graph with
  | None => []
  | Some tkwin =>
      GetPrivateGC (crosshairs_gc RbcLineWidth RbcLineIsDashed graph tkwin
                                  (crosshairs graph))
      :: match gc (crosshairs graph) with
         | Some old => [FreePrivateGC old]
         | None => []
         end
  end.

(** The calls on graphics contexts of one event: only configuring makes
    any, the command after it has stored its options. *)
Definition step_gc_calls (e : Event) (graph : RbcGraph) : list GCCall :=
  match e with
  | Configure args =>
      match the_window graph with
      | None => []
      | Some _ =>
          if (argc args =? 3) || (argc args =? 4) then []
          else
            match parsed args with
            | None => []
            | Some o =>
                configure_gc_calls
                  (set_crosshairs (store_options o (crosshairs graph)) graph)
            end
      end
  | Reconfigure => configure_gc_calls graph
  | _ => []
  end.

Fixpoint run_gc_calls (es : list Event) (graph : RbcGraph) : list GCCall :=
  match es with
  | [] => []
  | e :: es' =>
      step_gc_calls e graph
      ++ run_gc_calls es'
           (fst (step RbcLineWidth RbcLineIsDashed e graph))
  end.

(** An orderly history: the segments are resized ([Update]) only while
    the hairs are erased; a window given to the graph is on the display
    of the graph; and while the hairs are shown the window stays the same
    drawable and stays mapped. *)
Definition orderly_event (e : Event) (graph : RbcGraph) : bool :=
  match e with
  | Update => negb (visible (crosshairs graph))
  | WindowChanged w =>
      same_display (set_win w graph)
      && (negb (visible (crosshairs graph))
          || (window_mapped (set_win w graph)
              && same_drawable graph (set_win w graph)))
  | _ => true
  end.

Fixpoint orderly (es : list Event) (graph : RbcGraph) : bool :=
  match es with
  | [] => true
  | e :: es' =>
      orderly_event e graph
      && orderly es' (fst (step RbcLineWidth RbcLineIsDashed e graph))
  end.

End Histories.

(** ** The log of a print command *)

Import WinPrint.

Definition is_StartDoc (c : Call) : bool :=
  match c with StartDoc => true | _ => false end.

Definition is_EndDoc (c : Call) : bool :=
  match c with EndDoc => true | _ => false end.

Definition is_StartPage (c : Call) : bool :=
  match c with StartPage => true | _ => false end.

Definition is_StretchDIBits (c : Call) : bool :=
  match c with StretchDIBits => true | _ => false end.

Definition is_EndPage (c : Call) : bool :=
  match c with EndPage => true | _ => false end.

Definition count_calls (p : Call -> bool) (log : list Call) : nat :=
  List.length (filter p log).

(** The calls the page loop of [WinTextPrint] can make. *)
Definition page_call (c : Call) : bool :=
  match c with
  | StartPage | SetMapMode | SelectFont | MeasureText _ _ | DrawText _ _
  | EndPage | AppendResult _ => true
  | _ => false
  end.

(** The stretches of the buffer drawn, as (offset, count), in order. *)
Fixpoint drawn_ranges (log : list Call) : list (Z * Z) :=
  match log with
  | [] => []
  | DrawText begin count :: l => (begin, count) :: drawn_ranges l
  | _ :: l => drawn_ranges l
  end.

(** [chained from l]: the stretches of [l] follow one another from
    offset [from] without gap or overlap, each of at least one character;
    the result is the offset after the last. *)
Fixpoint chained (from : Z) (l : list (Z * Z)) : option Z :=
  match l with
  | [] => Some from
  | (begin, count) :: l' =>
      if (begin =? from) && (1 <=? count) then chained (from + count) l'
      else None
  end.

(** How [WinTextPrint] ends once the document has started, from the
    outcome of its page loop (lines 435-439, or the [return] taken inside
    the loop). *)
Definition after_pages (pages : M unit) : M TclStatus :=
  let opening := [PrintDlg; Open PrinterDC; StartDoc] in
  match pages with
  | (Go _, l) => (Return TCL_OK, opening ++ l ++ [EndDoc; Close PrinterDC])
  | (Return s, l) => (Return s, opening ++ l)
  | (Undefined, l) => (Undefined, opening ++ l)
  | (Timeout, l) => (Timeout, opening ++ l)
  end.

(** The arithmetic of lines 298-305 has no defined result: a divisor is
    zero, or a sum, a difference or a quotient is not an [int]. *)
Definition undefined_arithmetic (W : Win32) (data : string) : bool :=
  let yChar := tmHeight W + tmExternalLeading W in
  let lines_per_page := Z.quot (GetDeviceCaps W VERTRES) yChar in
  let lines := count_newlines data + lines_per_page in
  negb (is_int yChar)
  || (tmAveCharWidth W =? 0)
  || negb (is_int (Z.quot (GetDeviceCaps W HORZRES) (tmAveCharWidth W)))
  || (yChar =? 0)
  || negb (is_int lines_per_page)
  || negb (is_int lines)
  || negb (is_int (lines - 1))
  || (lines_per_page =? 0)
  || negb (is_int (Z.quot (lines - 1) lines_per_page)).


(** The command returned [TCL_OK]. *)
Definition returned_ok (m : M TclStatus) : bool :=
  match status m with
  | Return TCL_OK => true
  | _ => false
  end.

(** Every step of a canvas job succeeds. *)
Definition canvas_succeeds (W : Win32) (objc : Z) (path : string) : bool :=
  negb (objc <? 2)
  && match Tk_NameToWindow W path with Some _ => true | None => false end
  && BitBlt_ok W
  && negb (GetObject_ret W =? 0)
  && PrintDlg_ok W
  && pd_hDC W
  && negb (StartDoc_ret W <=? 0)
  && negb (StartPage_ret W 0 <=? 0).

(** A canvas job got as far as the print dialog, which did not return
    [TRUE]. *)
Definition dialog_refused (W : Win32) (objc : Z) (path : string) : bool :=
  negb (objc <? 2)
  && match Tk_NameToWindow W path with Some _ => true | None => false end
  && BitBlt_ok W
  && negb (GetObject_ret W =? 0)
  && negb (PrintDlg_ok W).

(** A canvas job got a printer DC and could not start its document or
    its page. *)
Definition job_not_started (W : Win32) (objc : Z) (path : string) : bool :=
  negb (objc <? 2)
  && match Tk_NameToWindow W path with Some _ => true | None => false end
  && BitBlt_ok W
  && negb (GetObject_ret W =? 0)
  && PrintDlg_ok W
  && pd_hDC W
  && ((StartDoc_ret W <=? 0) || (StartPage_ret W 0 <=? 0)).

End Observed.

(* ================================================================== *)
(** * Part V.  Properties of the crosshairs                             *)
(* ================================================================== *)

Module HairsFacts.

Import Hairs Stated.

(** ** The two primitives *)

Lemma TurnOnHairs_without_window graph chPtr :
  window_mapped graph = false -> TurnOnHairs graph chPtr = (chPtr, []).
Proof.
  unfold TurnOnHairs, window_mapped.
  destruct (the_window graph) as [tkwin|]; [|reflexivity].
  now intros ->.
Qed.

Lemma TurnOffHairs_unmapped tkwin chPtr :
  Tk_IsMapped tkwin = false -> TurnOffHairs tkwin chPtr = (chPtr, []).
Proof. unfold TurnOffHairs. now intros ->. Qed.

Lemma off_graph_outside graph :
  outside_plot graph -> off_graph graph (crosshairs graph) = true.
Proof.
  unfold outside_plot, off_graph. intros H.
  repeat rewrite orb_true_iff.
  rewrite !Z.gtb_lt, !Z.ltb_lt. tauto.
Qed.

Lemma set_hidden_same chPtr : set_hidden (hidden chPtr) chPtr = chPtr.
Proof. now destruct chPtr. Qed.

Lemma set_crosshairs_same graph : set_crosshairs (crosshairs graph) graph = graph.
Proof. now destruct graph. Qed.

Lemma set_hidden_unchanged graph h :
  hidden (crosshairs graph) = h ->
  set_crosshairs (set_hidden h (crosshairs graph)) graph = graph.
Proof. intros <-. now rewrite set_hidden_same, set_crosshairs_same. Qed.

(** ** Resizing *)

(** C7.  [RbcUpdateCrosshairs] changes nothing but four segment
    coordinates, which it sets to the current plot bounds: bottom and top
    for the vertical hair, left and right for the horizontal one.  The
    [hidden] and [visible] flags, the hot spot, every other field of the
    crosshairs, the coordinates of the segments that follow the hot spot
    and the graph are as before, and no request is sent to the server. *)
Theorem C7_update_changes_segment_ends_only (graph : RbcGraph) :
  let g' := fst (RbcUpdateCrosshairs graph) in
  let c := crosshairs graph in
  let c' := crosshairs g' in
  snd (RbcUpdateCrosshairs graph) = []
  /\ g' = set_crosshairs (set_segArr (segArr c') c) graph
  /\ (hidden c' = hidden c /\ visible c' = visible c
      /\ hotSpot c' = hotSpot c /\ dashes c' = dashes c
      /\ lineWidth c' = lineWidth c /\ colorPtr c' = colorPtr c
      /\ gc c' = gc c)
  /\ (x1 (fst (segArr c')) = x1 (fst (segArr c))
      /\ x2 (fst (segArr c')) = x2 (fst (segArr c))
      /\ y1 (snd (segArr c')) = y1 (snd (segArr c))
      /\ y2 (snd (segArr c')) = y2 (snd (segArr c)))
  /\ (y1 (fst (segArr c')) = bottom graph
      /\ y2 (fst (segArr c')) = top graph
      /\ x1 (snd (segArr c')) = left graph
      /\ x2 (snd (segArr c')) = right graph).
Proof.
  cbn. repeat split.
Qed.

(** ** Hot spot off the plot *)

Section Parametric.

Variable RbcLineWidth : Z -> Z.
Variable RbcLineIsDashed : RbcDashes -> bool.

Local Abbreviation RbcConfigureCrosshairs :=
  (RbcConfigureCrosshairs RbcLineWidth RbcLineIsDashed).
Local Abbreviation ConfigureOp := (ConfigureOp RbcLineWidth RbcLineIsDashed).
Local Abbreviation step := (step RbcLineWidth RbcLineIsDashed).
Local Abbreviation run := (run RbcLineWidth RbcLineIsDashed).
Local Abbreviation shown_on_window :=
  (shown_on_window RbcLineWidth RbcLineIsDashed).

(** C6.  With [hidden] false and the window mapped, a hot spot strictly
    outside the plot bounds is never drawn: [RbcConfigureCrosshairs]
    leaves [visible] false and sends at most the request that erases hairs
    drawn before (none when [visible] was false), and a draw attempt
    ([TurnOnHairs], [RbcEnableCrosshairs]) sends nothing and changes
    nothing. *)
Theorem C6_off_plot_not_drawn (graph : RbcGraph) (tkwin : TkWindow) :
  the_window graph = Some tkwin ->
  Tk_IsMapped tkwin = true ->
  hidden (crosshairs graph) = false ->
  outside_plot graph ->
  visible (crosshairs (fst (RbcConfigureCrosshairs graph))) = false
  /\ snd (RbcConfigureCrosshairs graph)
     = (if visible (crosshairs graph)
        then [XDrawSegments (tk_display tkwin) (window_id tkwin)
                            (gc (crosshairs graph))
                            (segArr (crosshairs graph))]
        else [])
  /\ TurnOnHairs graph (crosshairs graph) = (crosshairs graph, [])
  /\ RbcEnableCrosshairs graph = (graph, []).
Proof.
  intros Hw Hm Hh Hout.
  pose proof (off_graph_outside graph Hout) as Hoff.
  assert (Hon : TurnOnHairs graph (crosshairs graph) = (crosshairs graph, [])).
  { unfold TurnOnHairs. rewrite Hw, Hm, Hoff.
    now destruct (visible (crosshairs graph)). }
  assert (Hen : RbcEnableCrosshairs graph = (graph, [])).
  { unfold RbcEnableCrosshairs. rewrite Hh, Hon. cbn.
    now rewrite set_crosshairs_same. }
  unfold Hairs.RbcConfigureCrosshairs, TurnOffHairs, TurnOnHairs.
  rewrite Hw, Hm.
  destruct graph as [w d l r t b bg c]; destruct c as [hs v h ds lw sg col g].
  cbn in *. subst h. unfold off_graph in *. cbn in *. rewrite Hoff.
  destruct v; cbn; rewrite ?Hoff; cbn; auto.
Qed.

(** ** Without a mapped window *)

(** C2, amended.  When the window is missing or unmapped no operation
    sends a request, and [visible] is never changed.  Enable and disable
    leave the graph as it is, and [on] returns [TCL_OK] having at most
    cleared [hidden].  With no window at all, [RbcConfigureCrosshairs]
    leaves the graph as it is, and [off], [toggle] and the [configure]
    command, whatever its arguments, return [TCL_ERROR] with the graph as
    it is.  With an unmapped window, [off] and [toggle] return [TCL_OK]
    and change [hidden] only; [RbcConfigureCrosshairs] changes the
    graphics context and the segments only, to those computed from the
    current attributes and plot bounds; a [configure] command of three or
    four words returns the status of its query and changes nothing; a
    longer one returns [TCL_ERROR] and changes nothing when its options
    do not parse, and otherwise stores them, renews the graphics context
    and the segments, and returns [TCL_OK]. *)
Theorem C2_without_mapped_window (graph : RbcGraph) :
  window_mapped graph = false ->
  let c := crosshairs graph in
  RbcEnableCrosshairs graph = (graph, [])
  /\ RbcDisableCrosshairs graph = (graph, [])
  /\ OnOp graph = (set_crosshairs (set_hidden false c) graph, TCL_OK, [])
  /\ (the_window graph = None ->
      RbcConfigureCrosshairs graph = (graph, [])
      /\ OffOp graph = (graph, TCL_ERROR, [])
      /\ ToggleOp graph = (graph, TCL_ERROR, [])
      /\ forall args, ConfigureOp graph args = (graph, TCL_ERROR, []))
  /\ (forall tkwin, the_window graph = Some tkwin ->
      let renewed (g : RbcGraph) : RbcGraph :=
        let c1 :=
          set_gc (Some (crosshairs_gc RbcLineWidth RbcLineIsDashed
                                      g tkwin (crosshairs g)))
                 (crosshairs g) in
        set_crosshairs (set_segArr (crosshairs_segments g c1) c1) g in
      OffOp graph = (set_crosshairs (set_hidden true c) graph, TCL_OK, [])
      /\ ToggleOp graph
         = (set_crosshairs (set_hidden (negb (hidden c)) c) graph, TCL_OK, [])
      /\ RbcConfigureCrosshairs graph = (renewed graph, [])
      /\ forall args,
          ConfigureOp graph args
          = if (argc args =? 3) || (argc args =? 4)
            then (graph, info_status args, [])
            else match parsed args with
                 | None => (graph, TCL_ERROR, [])
                 | Some o =>
                     (renewed (set_crosshairs (store_options o c) graph),
                      TCL_OK, [])
                 end).
Proof.
  intros Hm c. subst c.
  pose proof (TurnOnHairs_without_window graph) as Hon.
  specialize (fun ch => Hon ch Hm).
  repeat apply conj.
  - unfold RbcEnableCrosshairs. rewrite Hon.
    destruct (hidden (crosshairs graph)); cbn; [reflexivity|].
    now rewrite set_crosshairs_same.
  - unfold RbcDisableCrosshairs, window_mapped in *.
    destruct (the_window graph) as [tkwin|]; [|reflexivity].
    rewrite (TurnOffHairs_unmapped _ _ Hm).
    destruct (hidden (crosshairs graph)); cbn; [reflexivity|].
    now rewrite set_crosshairs_same.
  - unfold OnOp. rewrite Hon.
    destruct (hidden (crosshairs graph)) eqn:Hh; [reflexivity|].
    now rewrite set_hidden_unchanged.
  - intros Hw. unfold Hairs.RbcConfigureCrosshairs, OffOp, ToggleOp,
      Hairs.ConfigureOp. rewrite Hw. auto.
  - intros tkwin Hw renewed. unfold window_mapped in Hm. rewrite Hw in Hm.
    assert (Hoff : forall ch, TurnOffHairs tkwin ch = (ch, []))
      by (intros; now apply TurnOffHairs_unmapped).
    assert (Hcfg : forall g, the_window g = Some tkwin ->
              RbcConfigureCrosshairs g = (renewed g, [])).
    { intros g Hg. unfold Hairs.RbcConfigureCrosshairs.
      rewrite Hg, Hoff.
      rewrite TurnOnHairs_without_window
        by (unfold window_mapped; now rewrite Hg).
      cbn. now destruct (hidden (crosshairs g)). }
    repeat apply conj.
    + unfold OffOp. rewrite Hw, Hoff.
      destruct (hidden (crosshairs graph)) eqn:Hh; [|reflexivity].
      cbn. now rewrite set_hidden_unchanged.
    + unfold ToggleOp. rewrite Hw, Hoff, Hon.
      now destruct (hidden (crosshairs graph)).
    + apply Hcfg, Hw.
    + intros args. unfold Hairs.ConfigureOp. rewrite Hw.
      destruct ((argc args =? 3) || (argc args =? 4)); [reflexivity|].
      destruct (parsed args) as [o|]; [|reflexivity].
      now rewrite Hcfg by exact Hw.
Qed.

(** ** Suppressed hairs are not drawn *)

Ltac flags :=
  repeat match goal with
         | |- context [if ?b then _ else _] => destruct b eqn:?; cbn in *
         | H : context [if ?b then _ else _] |- _ => destruct b eqn:?; cbn in *
         end;
  try solve [intuition congruence].

Lemma drawn_is_shown_suppressed graph :
  drawn_is_shown graph -> suppressed_not_drawn graph.
Proof.
  unfold drawn_is_shown, suppressed_not_drawn. intros H Hh.
  destruct (visible (crosshairs graph)); [|reflexivity].
  destruct H as [_ H]; congruence.
Qed.

(** Configuring restores consistency whatever [hidden] was set to, as
    long as hairs marked as drawn are on a mapped window. *)
Lemma RbcConfigureCrosshairs_shown graph :
  (visible (crosshairs graph) = true -> window_mapped graph = true) ->
  drawn_is_shown (fst (RbcConfigureCrosshairs graph)).
Proof.
  unfold drawn_is_shown, Hairs.RbcConfigureCrosshairs, window_mapped,
    TurnOffHairs, TurnOnHairs, Tk_IsMapped.
  destruct graph as [w d l r t b bg c]; destruct c as [hs v h ds lw sg col g].
  unfold the_window; cbn.
  destruct w as [[tkwin|]|]; cbn; try (intros H Hv; specialize (H Hv); congruence).
  destruct tkwin as [m wid dpy wp]; cbn.
  destruct m, v, h; cbn; intros H; flags.
Qed.

Lemma step_shown e graph :
  keeps_window e graph = true ->
  drawn_is_shown graph ->
  drawn_is_shown (fst (step e graph)).
Proof.
  intros Hk Hinv. destruct e; cbn [Hairs.step].
  - (* configure command *)
    unfold Hairs.ConfigureOp.
    destruct (the_window graph) as [tkwin|] eqn:Hw; cbn; [|exact Hinv].
    destruct ((argc args =? 3) || (argc args =? 4)); cbn; [exact Hinv|].
    destruct (parsed args) as [o|]; cbn; [|exact Hinv].
    set (g := set_crosshairs _ graph).
    pose proof (RbcConfigureCrosshairs_shown g) as H.
    destruct (RbcConfigureCrosshairs g) as [g' reqs]. cbn in *.
    apply H. intros Hv. now apply Hinv.
  - apply RbcConfigureCrosshairs_shown. intros Hv. now apply Hinv.
  - (* enable *)
    revert Hinv.
    unfold drawn_is_shown, RbcEnableCrosshairs, window_mapped, TurnOnHairs,
      Tk_IsMapped.
    destruct graph as [w d l r t b bg c]; destruct c as [hs v h ds lw sg col g].
    unfold the_window; cbn.
    destruct w as [[[m wid dpy wp]|]|]; cbn; try destruct m; destruct v, h;
      cbn; flags.
  - (* disable *)
    revert Hinv.
    unfold drawn_is_shown, RbcDisableCrosshairs, window_mapped, TurnOffHairs,
      Tk_IsMapped.
    destruct graph as [w d l r t b bg c]; destruct c as [hs v h ds lw sg col g].
    unfold the_window; cbn.
    destruct w as [[[m wid dpy wp]|]|]; cbn; try destruct m; destruct v, h;
      cbn; flags.
  - (* update *)
    exact Hinv.
  - (* on *)
    revert Hinv.
    unfold drawn_is_shown, OnOp, window_mapped, TurnOnHairs, Tk_IsMapped.
    destruct graph as [w d l r t b bg c]; destruct c as [hs v h ds lw sg col g].
    unfold the_window; cbn.
    destruct w as [[[m wid dpy wp]|]|]; cbn; try destruct m; destruct v, h;
      cbn; flags.
  - (* off *)
    revert Hinv.
    unfold drawn_is_shown, OffOp, window_mapped, TurnOffHairs, Tk_IsMapped.
    destruct graph as [w d l r t b bg c]; destruct c as [hs v h ds lw sg col g].
    unfold the_window; cbn.
    destruct w as [[[m wid dpy wp]|]|]; cbn; try destruct m; destruct v, h;
      cbn; flags.
  - (* toggle *)
    revert Hinv.
    unfold drawn_is_shown, ToggleOp, window_mapped, TurnOffHairs, TurnOnHairs,
      Tk_IsMapped.
    destruct graph as [w d l r t b bg c]; destruct c as [hs v h ds lw sg col g].
    unfold the_window; cbn.
    destruct w as [[[m wid dpy wp]|]|]; cbn; try destruct m; destruct v, h;
      cbn; flags.
  - (* the window changes *)
    revert Hk Hinv. unfold keeps_window, drawn_is_shown. cbn.
    destruct (visible (crosshairs graph)); cbn; intuition congruence.
  - exact Hinv.
  - exact Hinv.
Qed.

Lemma run_shown es : forall graph,
  shown_on_window es graph = true ->
  drawn_is_shown graph ->
  drawn_is_shown (fst (run es graph)).
Proof.
  induction es as [|e es IH]; intros graph Hk Hinv; [exact Hinv|].
  cbn in Hk. apply andb_true_iff in Hk as [Hk1 Hk2].
  pose proof (step_shown e graph Hk1 Hinv) as H1.
  cbn [Hairs.run].
  destruct (step e graph) as [g1 r1]. cbn in *.
  specialize (IH g1 Hk2 H1).
  now destruct (run es g1) as [g2 r2].
Qed.

Lemma RbcCreateCrosshairs_shown graph color init g0 :
  RbcCreateCrosshairs graph color init = Some g0 -> drawn_is_shown g0.
Proof.
  unfold RbcCreateCrosshairs.
  destruct (the_window graph); [|discriminate].
  destruct init as [o|]; [|discriminate].
  intros [= <-]. unfold drawn_is_shown. cbn. discriminate.
Qed.

(** A history of crosshair operations alone keeps the window. *)
Lemma operations_keep_window es : forall graph,
  forallb is_operation es = true -> shown_on_window es graph = true.
Proof.
  induction es as [|e es IH]; intros graph H; [reflexivity|].
  cbn in H. apply andb_true_iff in H as [He Hes].
  cbn [Hairs.shown_on_window]. rewrite IH by exact Hes.
  now destruct e.
Qed.

(** With the window as it is, operations alone never leave suppressed
    hairs marked as drawn. *)
Corollary operations_alone_suppressed_not_drawn
          (graph : RbcGraph) (color : XColor) (init : option HairsOptions)
          (g0 : RbcGraph) (es : list Event) :
  RbcCreateCrosshairs graph color init = Some g0 ->
  forallb is_operation es = true ->
  suppressed_not_drawn (fst (run es g0)).
Proof.
  intros Hc Hops. apply drawn_is_shown_suppressed, run_shown.
  - now apply operations_keep_window.
  - eapply RbcCreateCrosshairs_shown, Hc.
Qed.

(** X23.  In every state reached from [RbcCreateCrosshairs] by a history
    of operations, layout changes and window changes during which the
    window is not unmapped or removed while the hairs are marked as
    drawn, [hidden] implies that [visible] is false. *)
Theorem suppressed_not_drawn_while_window_kept
        (graph : RbcGraph) (color : XColor) (init : option HairsOptions)
        (g0 : RbcGraph) (es : list Event) :
  RbcCreateCrosshairs graph color init = Some g0 ->
  shown_on_window es g0 = true ->
  suppressed_not_drawn (fst (run es g0)).
Proof.
  intros Hc Hk. apply drawn_is_shown_suppressed, run_shown; [exact Hk|].
  eapply RbcCreateCrosshairs_shown, Hc.
Qed.

End Parametric.

(** ** Enabling twice *)

(** C8, amended.  Enabling twice in a row gives the state of enabling
    once, and the second call sends nothing; the first call sends exactly
    one request when [hidden] is false, the window is mapped, [visible] is
    false and the hot spot is within the plot bounds, and none
    otherwise. *)
Theorem C8_enable_twice (graph : RbcGraph) :
  let '(g1, r1) := RbcEnableCrosshairs graph in
  let '(g2, r2) := RbcEnableCrosshairs g1 in
  g2 = g1
  /\ r2 = []
  /\ List.length (r1 ++ r2)
     = if negb (hidden (crosshairs graph)) && can_draw graph
       then 1%nat else 0%nat.
Proof.
  unfold RbcEnableCrosshairs, can_draw, window_mapped, TurnOnHairs,
    Tk_IsMapped.
  destruct graph as [w d l r t b bg c]; destruct c as [hs v h ds lw sg col g].
  unfold the_window; cbn.
  destruct w as [[[m wid dpy wp]|]|]; cbn; destruct h; cbn; auto.
  destruct m, v; cbn; auto.
  unfold off_graph; cbn.
  destruct ((x hs >? r) || (x hs <? l) || (y hs >? b) || (y hs <? t)) eqn:E;
    cbn; rewrite ?E; cbn; auto.
Qed.

(** ** Instances *)

Import Samples.

Lemma C6_off_plot_not_drawn_witness :
  RbcEnableCrosshairs off_plot_graph = (off_plot_graph, []).
Proof.
  refine (proj2 (proj2 (proj2
    (C6_off_plot_not_drawn line_width is_dashed off_plot_graph shown_window
       _ _ _ _)))).
  - reflexivity.
  - reflexivity.
  - reflexivity.
  - unfold outside_plot. cbn. lia.
Defined.

(** C2 as worded fails: [off] on a graph without a window is an
    error. *)
Lemma C2_off_without_window_is_error :
  window_mapped (graph_on None) = false
  /\ ~ no_op_success (graph_on None) (OffOp (graph_on None)).
Proof.
  split; [reflexivity|]. unfold no_op_success. cbn. discriminate.
Qed.

Lemma C2_without_mapped_window_witness :
  let g := graph_on (Some (Some withdrawn_window)) in
  OffOp (graph_on None) = (graph_on None, TCL_ERROR, [])
  /\ OnOp (graph_on None)
     = (set_crosshairs (set_hidden false fresh_hairs) (graph_on None),
        TCL_OK, [])
  /\ OffOp g = (g, TCL_OK, [])
  /\ ToggleOp g = (set_crosshairs (set_hidden false fresh_hairs) g, TCL_OK, [])
  /\ RbcConfigureCrosshairs line_width is_dashed g
     = (set_crosshairs
          (mkCrosshairs (mkXPoint (-1) (-1)) false true [] 0
             (mkXSegment (-1) 100 (-1) 10, mkXSegment 10 (-1) 200 (-1))
             (mkXColor 0)
             (Some (mkGC GXxor 16777215 16777215 0 None None)))
          g, [])
  /\ ConfigureOp line_width is_dashed g (mkArgs 3 TCL_OK None)
     = (g, TCL_OK, [])
  /\ ConfigureOp line_width is_dashed g (mkArgs 5 TCL_OK None)
     = (g, TCL_ERROR, [])
  /\ ConfigureOp line_width is_dashed g (at_position 50 50)
     = (set_crosshairs
          (mkCrosshairs (mkXPoint 50 50) false true [] 0
             (mkXSegment 50 100 50 10, mkXSegment 10 50 200 50)
             (mkXColor 0)
             (Some (mkGC GXxor 16777215 16777215 0 None None)))
          g, TCL_OK, []).
Proof.
  destruct (C2_without_mapped_window line_width is_dashed (graph_on None)
              eq_refl) as (_ & _ & Hon & Hnone & _).
  destruct (Hnone eq_refl) as (_ & Hoff & _).
  destruct (C2_without_mapped_window line_width is_dashed
              (graph_on (Some (Some withdrawn_window))) eq_refl)
    as (_ & _ & _ & _ & Hsome).
  destruct (Hsome withdrawn_window eq_refl) as (Hoff' & Htog & Hcfg & Hop).
  repeat apply conj.
  - exact Hoff.
  - exact Hon.
  - exact Hoff'.
  - exact Htog.
  - exact Hcfg.
  - exact (Hop (mkArgs 3 TCL_OK None)).
  - exact (Hop (mkArgs 5 TCL_OK None)).
  - exact (Hop (at_position 50 50)).
Defined.

(** C3 on a window that is withdrawn while the hairs are drawn.  The
    hairs are placed on the plot and switched on, the window is unmapped,
    and [off] is given: [TurnOffHairs] does nothing on the unmapped
    window, so the command sets [hidden] and leaves [visible] true, with
    the one drawing request as all that was ever sent.  When the window
    is mapped again and redrawn, [on] finds [visible] set and draws
    nothing; the next [off] then sends the segments, which on the fresh
    plot draws the hairs, and leaves them there with [hidden] true and
    [visible] false. *)
Theorem C3_stale_visible_after_unmap :
  let g0 := graph_on (Some (Some shown_window)) in
  let hairs :=
    XDrawSegments 1 42 (Some (mkGC GXxor 16777215 16777215 0 None None))
                  (mkXSegment 50 100 50 10, mkXSegment 10 50 200 50) in
  let '(g1, r1) := run line_width is_dashed withdrawn_history g0 in
  let '(g2, r2) := run line_width is_dashed remapped_history g1 in
  RbcCreateCrosshairs g0 (mkXColor 0) (Some no_option) = Some g0
  /\ (hidden (crosshairs g1) = true /\ visible (crosshairs g1) = true)
  /\ ~ suppressed_not_drawn g1
  /\ r1 = [hairs]
  /\ snd (run line_width is_dashed [On] (fst (run line_width is_dashed
            [WindowChanged (Some (Some shown_window)); Disable; Enable] g1)))
     = []
  /\ r2 = [hairs]
  /\ (hidden (crosshairs g2) = true /\ visible (crosshairs g2) = false).
Proof.
  vm_compute. repeat split.
  intros H. specialize (H eq_refl). discriminate.
Qed.

Lemma suppressed_not_drawn_while_window_kept_witness :
  suppressed_not_drawn
    (fst (run line_width is_dashed kept_history
              (graph_on (Some (Some shown_window))))).
Proof.
  apply (suppressed_not_drawn_while_window_kept line_width is_dashed
           (graph_on (Some (Some shown_window))) (mkXColor 0)
           (Some no_option)).
  - reflexivity.
  - vm_compute. reflexivity.
Defined.

(** C8 as worded fails: on hairs that are already drawn two calls send
    no request at all. *)
Lemma C8_enable_twice_when_drawn :
  hidden (crosshairs drawn_graph) = false
  /\ ~ enable_twice_draws_once drawn_graph.
Proof.
  split; [reflexivity|].
  unfold enable_twice_draws_once. cbn. intros [_ H]. discriminate.
Qed.

End HairsFacts.

(* ================================================================== *)
(** * Part VI.  Properties of the print bridge                          *)
(* ================================================================== *)

Module PrintFacts.

Import WinPrint Stated.

Local Open Scope print_scope.

(** ** The monad *)

Lemma status_bind_go {A B : Type} (a : A) (l : list Call) (k : A -> M B) :
  status (bind (Go a, l) k) = status (k a).
Proof. unfold status. cbn. now destruct (k a). Qed.

Lemma calls_bind_go {A B : Type} (a : A) (l : list Call) (k : A -> M B) :
  calls (bind (Go a, l) k) = l ++ calls (k a).
Proof. unfold calls. cbn. now destruct (k a). Qed.

Lemma messages_app (l1 l2 : list Call) :
  messages (l1 ++ l2) = messages l1 ++ messages l2.
Proof.
  induction l1 as [|c l1 IH]; [reflexivity|].
  destruct c; cbn; now rewrite ?IH.
Qed.

Lemma message_after {A B : Type} (a : A) (l : list Call) (k : A -> M B) :
  messages (calls (k a)) <> [] ->
  messages (calls (bind (Go a, l) k)) <> [].
Proof.
  rewrite calls_bind_go, messages_app. intros H E.
  apply app_eq_nil in E as [_ E]. contradiction.
Qed.

(** An error branch: the message is in the log. *)
Ltac said := intros _; vm_compute; intros [=].

(** ** The search for the page break *)

Section Search.

Variable W : Win32.
Variable r : RECT.

(** Entered as the page loop enters it (range 0 .. [high], candidate
    [high]) on a non-empty remainder, the search measures once, the whole
    remainder, and settles on all of it when its height is below
    [r.bottom], and on half of it otherwise (on the one character left,
    if there is only one). *)
Lemma fit_search_measures_once (begin high : Z) :
  0 < high ->
  calls (fit_search W r begin 0 high high) = [MeasureText begin high]
  /\ exists low' high',
      value (fit_search W r begin 0 high high)
      = Some (low', high',
              if MeasureText_ret W begin high <? rect_bottom r then high
              else if high =? 1 then high else Z.quot high 2).
Proof.
  intros Hh. unfold fit_search, fit_probe.
  destruct (Z.ltb_spec 0 high) as [_|]; [|lia].
  split; [reflexivity|].
  unfold value. cbn.
  assert (E : (if MeasureText_ret W begin high >? rect_bottom r
               then high else high) = high) by now destruct (_ >? _).
  rewrite !E.
  destruct (MeasureText_ret W begin high <? rect_bottom r).
  - destruct (Z.eqb_spec high (high - 1)); [lia|].
    rewrite Z.ltb_irrefl. eauto.
  - destruct (Z.eqb_spec 0 (high - 1)), (Z.eqb_spec high 1); try lia.
    + rewrite Z.ltb_irrefl. eauto.
    + destruct (Z.ltb_spec 0 high); [|lia].
      rewrite Z.sub_0_r. cbn. eauto.
Qed.

(** Every page takes at least one character and at most what is left. *)
Lemma fit_search_progress (begin high : Z) :
  0 < high ->
  exists low' high' textcount,
    fit_search W r begin 0 high high
    = (Go (low', high', textcount), [MeasureText begin high])
    /\ 1 <= textcount <= high.
Proof.
  intros Hh.
  destruct (fit_search_measures_once begin high Hh) as (Hc & lo & hi & Hv).
  unfold value, calls in *.
  destruct (fit_search W r begin 0 high high) as [[[[lo' hi'] c]| | |] l];
    cbn in *; try discriminate.
  injection Hv as -> -> ->. subst l.
  eexists _, _, _. split; [reflexivity|].
  destruct (_ <? _); [lia|].
  destruct (Z.eqb_spec high 1); [lia|].
  assert (H2 : 2 <= high) by lia.
  pose proof (Z.quot_le_lower_bound high 2 1) as Hlo.
  pose proof (Z.quot_lt high 2) as Hup. lia.
Qed.

(** The page loop is never cut off by its bound when the bound is the
    number of characters left: the function returns. *)
Lemma print_pages_returns (n : nat) (printlen : Z) :
  forall page output text_done,
    printlen - text_done <= Z.of_nat n ->
    status (print_pages W n printlen r page output text_done) <> Timeout.
Proof.
  induction n as [|n IH]; intros page output text_done Hn;
    cbn [print_pages].
  - destruct ((output >=? 0) && (text_done <? printlen)) eqn:E;
      [|discriminate].
    apply andb_true_iff in E as [_ E]. apply Z.ltb_lt in E. lia.
  - destruct ((output >=? 0) && (text_done <? printlen)) eqn:E;
      [|discriminate].
    apply andb_true_iff in E as [_ E]. apply Z.ltb_lt in E.
    unfold answer. rewrite status_bind_go.
    destruct (StartPage_ret W page =? 0); [discriminate|].
    unfold call. rewrite !status_bind_go.
    destruct (fit_search_progress text_done (printlen - text_done))
      as (lo & hi & c & -> & Hc); [lia|].
    rewrite !status_bind_go. cbn [snd].
    destruct (DrawText_ret W text_done c =? 0); [discriminate|].
    rewrite status_bind_go.
    destruct (EndPage_ret W page =? 0); [discriminate|].
    apply IH. lia.
Qed.

(** Whenever the page loop leaves with [TCL_ERROR] it has left a
    message. *)
Lemma print_pages_error_has_message (n : nat) (printlen : Z) :
  forall page output text_done,
    status (print_pages W n printlen r page output text_done)
    = Return TCL_ERROR ->
    messages (calls (print_pages W n printlen r page output text_done))
    <> [].
Proof.
  induction n as [|n IH]; intros page output text_done;
    cbn [print_pages];
    destruct ((output >=? 0) && (text_done <? printlen)) eqn:E;
    try discriminate.
  apply andb_true_iff in E as [_ E]. apply Z.ltb_lt in E.
  unfold answer, call, leave.
  rewrite status_bind_go. intros H. apply message_after. revert H.
  destruct (StartPage_ret W page =? 0); [said|].
  rewrite !status_bind_go. intros H. do 2 apply message_after. revert H.
  destruct (fit_search_progress text_done (printlen - text_done))
    as (lo & hi & c & -> & Hc); [lia|].
  rewrite !status_bind_go. intros H. do 2 apply message_after.
  revert H. cbn [snd].
  destruct (DrawText_ret W text_done c =? 0); [said|].
  rewrite status_bind_go. intros H. apply message_after. revert H.
  destruct (EndPage_ret W page =? 0); [said|].
  apply IH.
Qed.

End Search.

Ltac arith :=
  cbv beta iota zeta delta [bind app negb orb]; try reflexivity.

(** The arithmetic of lines 298-305 in closed form. *)
Lemma page_count_eq (W : Win32) (data : string) :
  page_count W data
  = (if Observed.undefined_arithmetic W data then Undefined
     else
       let lines_per_page :=
         Z.quot (GetDeviceCaps W VERTRES)
                (tmHeight W + tmExternalLeading W) in
       Go (Z.quot (count_newlines data + lines_per_page - 1) lines_per_page),
     []).
Proof.
  unfold page_count, Observed.undefined_arithmetic, c_add, c_sub, c_div,
    c_int, ret.
  cbv zeta.
  destruct (is_int (tmHeight W + tmExternalLeading W)); arith.
  destruct (tmAveCharWidth W =? 0); arith.
  destruct (is_int (Z.quot (GetDeviceCaps W HORZRES) (tmAveCharWidth W)));
    arith.
  destruct (tmHeight W + tmExternalLeading W =? 0); arith.
  destruct (is_int (Z.quot _ _)); arith.
  destruct (is_int (count_newlines data + _)); arith.
  destruct (is_int (count_newlines data + _ - 1)); arith.
  destruct (Z.quot _ _ =? 0); arith.
  destruct (is_int (Z.quot _ _)); arith.
Qed.

(** [WinTextPrint] returns a status or has no defined behaviour; it is
    never cut off. *)
Lemma WinTextPrint_returns (W : Win32) (objc : Z) (data : string) :
  status (WinTextPrint W objc data) <> Timeout.
Proof.
  unfold WinTextPrint. rewrite page_count_eq.
  unfold call, answer, when, ret, leave.
  repeat first
    [ discriminate
    | rewrite status_bind_go
    | match goal with
      | |- context [if ?b then _ else _] => destruct b
      end ].
  pose proof (print_pages_returns W (page_rect W) (String.length data)
                (Z.of_nat (String.length data)) (pd_nMinPage W)
                (StartDoc_ret W) 0) as H.
  unfold status in *.
  destruct (print_pages _ _ _ _ _ _ _) as [[[]| | |] l]; cbn in *;
    try discriminate.
  exfalso. apply H; [lia | reflexivity].
Qed.

(** Whenever [WinTextPrint] returns [TCL_ERROR] it has left a message
    in the interpreter. *)
Lemma WinTextPrint_error_has_message (W : Win32) (objc : Z) (data : string) :
  status (WinTextPrint W objc data) = Return TCL_ERROR ->
  messages (calls (WinTextPrint W objc data)) <> [].
Proof.
  unfold WinTextPrint. rewrite page_count_eq.
  unfold call, answer, when, ret, leave.
  destruct (negb (objc =? 2)); [said|].
  rewrite status_bind_go. intros H. apply message_after. revert H.
  destruct (PrintDlg_ok W); [|discriminate].
  destruct (pd_hDC W); cbn [negb];
    rewrite status_bind_go; intros H; apply message_after; revert H;
    [|said].
  destruct (Observed.undefined_arithmetic W data); [discriminate|].
  rewrite !status_bind_go. intros H. do 2 apply message_after. revert H.
  destruct (StartDoc_ret W =? 0); [said|].
  pose proof (print_pages_error_has_message W (page_rect W)
                (String.length data) (Z.of_nat (String.length data))
                (pd_nMinPage W) (StartDoc_ret W) 0) as Hp.
  unfold status, calls in *.
  destruct (print_pages _ _ _ _ _ _ _) as [[[]|st| |] l]; cbn in *;
    try discriminate.
  intros [= ->]. now apply Hp.
Qed.

(** ** Text printing *)

(** C10, amended.  On an empty text, once the dialog has returned a
    printer DC and the arithmetic of lines 298-305 has a defined result,
    [WinTextPrint] starts no page and draws nothing.  When [StartDoc]
    returns 0 it leaves the message "unable to start document" and
    returns [TCL_ERROR] with the DC still held; otherwise it starts the
    document, ends it, deletes the DC and returns [TCL_OK]. *)
Theorem C10_empty_text_prints_no_page (W : Win32) (data : string) :
  String.length data = 0%nat ->
  PrintDlg_ok W = true ->
  pd_hDC W = true ->
  Observed.undefined_arithmetic W data = false ->
  WinTextPrint W 2 data
  = if StartDoc_ret W =? 0
    then (Return TCL_ERROR,
          [PrintDlg; Open PrinterDC; StartDoc;
           AppendResult "unable to start document"])
    else (Return TCL_OK,
          [PrintDlg; Open PrinterDC; StartDoc; EndDoc; Close PrinterDC]).
Proof.
  intros Hlen Hdlg Hdc Hdef.
  destruct data; [|discriminate]. clear Hlen.
  unfold WinTextPrint. rewrite page_count_eq, Hdlg, Hdc, Hdef. cbn.
  destruct (StartDoc_ret W =? 0); cbn; [reflexivity|].
  now rewrite andb_false_r.
Qed.

(** ** The size of the picture of a canvas *)









Import Samples.

Lemma C10_empty_text_witness :
  WinTextPrint (working "") 2 ""
  = (Return TCL_OK, [PrintDlg; Open PrinterDC; StartDoc; EndDoc;
                     Close PrinterDC]).
Proof.
  exact (C10_empty_text_prints_no_page (working "") "" eq_refl eq_refl
           eq_refl eq_refl).
Defined.

(** C10 as worded fails: with an empty text and a dialog that returned a
    printer DC, [StartDoc] returning 0 makes the command return
    [TCL_ERROR] before any document is ended. *)
Lemma C10_document_not_started :
  let W := failing_spooler "" 0 1 in
  PrintDlg_ok W = true
  /\ pd_hDC W = true
  /\ WinTextPrint W 2 ""
     = (Return TCL_ERROR,
        [PrintDlg; Open PrinterDC; StartDoc;
         AppendResult "unable to start document"])
  /\ ~ empty_text_succeeds W.
Proof.
  repeat split. unfold empty_text_succeeds. vm_compute. intros [=].
Qed.

(** On the printer of 4800 by 1200 dots a window of 300 by 200 pixels is
    printed 1800 by 1200, six times its size. *)
Lemma stretch_destination_of_sample :
  stretch_destination (working "") (mkWindow true 300 200)
  = (Some 1800, Some 1200)
  /\ scaled_exactly (working "") (mkWindow true 300 200).
Proof.
  split; [now vm_compute|].
  exists 1800, 1200. now vm_compute.
Qed.


(** C1 on a text of 400 characters in 200 lines, on a page whose
    rectangle ends at 1100 of 1200 dots and holds 55 lines of 20: for the
    first page the code measures the whole text once and draws half of it,
    200 characters that are 2000 high, although 110 characters fit and
    200 do not. *)
Theorem C1_first_page_overflows :
  let W := working long_text in
  status (WinTextPrint W 2 long_text) = Return TCL_OK
  /\ filter is_draw (calls (WinTextPrint W 2 long_text))
     = [DrawText 0 200; DrawText 200 100; DrawText 300 100]
  /\ calls (fit_search W (page_rect W) 0 0 400 400) = [MeasureText 0 400]
  /\ page_height W = 1200
  /\ rect_bottom (page_rect W) = 1100
  /\ MeasureText_ret W 0 200 = 2000
  /\ ~ fits W 0 200
  /\ fits W 0 110.
Proof.
  unfold fits. vm_compute.
  repeat split; try reflexivity; try discriminate.
  intros H. now apply H.
Qed.

(** C9 on three failures.  When the print dialog does not return [TRUE]
    the command returns [TCL_OK] with an empty result; when [StartDoc]
    fails with -1 it prints nothing and returns [TCL_OK] with an empty
    result; when [EndPage] fails with -1 after the first page it stops
    printing and returns [TCL_OK] with an empty result. *)
Theorem C9_failures_reported_as_success :
  WinTextPrint (no_dialog long_text) 2 long_text
  = (Return TCL_OK, [PrintDlg])
  /\ WinTextPrint (failing_spooler long_text (-1) 1) 2 long_text
     = (Return TCL_OK, [PrintDlg; Open PrinterDC; StartDoc; EndDoc;
                        Close PrinterDC])
  /\ (let m := WinTextPrint (failing_spooler long_text 1 (-1)) 2 long_text in
      status m = Return TCL_OK
      /\ messages (calls m) = []
      /\ filter is_draw (calls m) = [DrawText 0 200]).
Proof.
  vm_compute. repeat split.
Qed.

(** ** Canvas printing *)

(** C4 on two failures.  When the print dialog does not return [TRUE],
    [WinCanvasPrint] returns [TCL_ERROR] with the window DC, the bitmap,
    the memory DC and the palette still held; when [StartDoc] fails, it
    releases those and returns [TCL_ERROR] with the printer DC still
    held. *)
Theorem C4_handles_left_open :
  (let m := WinCanvasPrint (no_dialog "") 2 ".c" in
   status m = Return TCL_ERROR
   /\ leaked (calls m) = [WindowDC; Bitmap; MemoryDC; Palette])
  /\ (let m := WinCanvasPrint (failing_spooler "" (-1) 1) 2 ".c" in
      status m = Return TCL_ERROR
      /\ leaked (calls m) = [PrinterDC]).
Proof.
  vm_compute. repeat split.
Qed.

(** A job that goes through releases every handle it obtained. *)
Lemma WinCanvasPrint_success_releases_all (W : Win32) (objc : Z)
      (path : string) :
  status (WinCanvasPrint W objc path) = Return TCL_OK ->
  leaked (calls (WinCanvasPrint W objc path)) = [].
Proof.
  unfold WinCanvasPrint, WinGetSystemPalette, canvas_done, call, answer,
    when, ret, leave, status, calls.
  destruct (objc <? 2); [discriminate|].
  destruct (Tk_NameToWindow W path) as [tkwin|]; [|discriminate].
  destruct (has_id tkwin), (CreateDIBSection_ok W),
    (CreateCompatibleDC_ok W), (RC_PALETTE_set W), (CreatePalette_ok W);
    cbv beta iota zeta delta [bind app negb];
    (destruct (BitBlt_ok W); [|discriminate]);
    (destruct (GetObject_ret W =? 0); [discriminate|]);
    (destruct (PrintDlg_ok W); [|discriminate]);
    (destruct (pd_hDC W); [|discriminate]);
    (destruct (StartDoc_ret W <=? 0); [discriminate|]);
    (destruct (StartPage_ret W 0 <=? 0); [discriminate|]);
    reflexivity.
Qed.

End PrintFacts.

(* ================================================================== *)
(** * Part VII.  Further properties of the crosshairs                   *)
(* ================================================================== *)

Module HairsMore.

Import Hairs Stated Observed HairsFacts.

(** Case analysis on every test left in the goal. *)
Ltac tests :=
  repeat match goal with
         | |- context [if ?b then _ else _] => destruct b eqn:?; cbn in *
         end.

Ltac open_graph graph :=
  let w := fresh "w" in
  let c := fresh "c" in
  destruct graph as [w ? ? ? ? ? ? c];
  destruct c as [? [|] [|] ? ? ? ? ?];
  destruct w as [[[[|] ? ? ?]|]|].

Lemma xor_trace_app (p q r : Picture) (l1 l2 : list XRequest) :
  xor_trace p l1 q -> xor_trace q l2 r -> xor_trace p (l1 ++ l2) r.
Proof.
  induction 1; intros H2; cbn; [exact H2 | |]; constructor; auto.
Qed.

Lemma screen_trace_app (p q r : Screen) (l1 l2 : list XRequest) :
  screen_trace p l1 q -> screen_trace q l2 r -> screen_trace p (l1 ++ l2) r.
Proof.
  induction 1; intros H2; cbn; [exact H2 | |]; constructor; auto.
Qed.

Section Parametric.

Variable RbcLineWidth : Z -> Z.
Variable RbcLineIsDashed : RbcDashes -> bool.

Local Abbreviation RbcConfigureCrosshairs :=
  (RbcConfigureCrosshairs RbcLineWidth RbcLineIsDashed).
Local Abbreviation ConfigureOp := (ConfigureOp RbcLineWidth RbcLineIsDashed).
Local Abbreviation step := (step RbcLineWidth RbcLineIsDashed).
Local Abbreviation run := (run RbcLineWidth RbcLineIsDashed).
Local Abbreviation orderly := (orderly RbcLineWidth RbcLineIsDashed).
Local Abbreviation run_gc_calls :=
  (run_gc_calls RbcLineWidth RbcLineIsDashed).
Local Abbreviation step_gc_calls :=
  (step_gc_calls RbcLineWidth RbcLineIsDashed).

(** ** Parity of the requests *)

Lemma RbcConfigureCrosshairs_parity graph :
  visible (crosshairs (fst (RbcConfigureCrosshairs graph)))
  = xorb (visible (crosshairs graph))
         (Nat.odd (List.length (snd (RbcConfigureCrosshairs graph)))).
Proof.
  unfold Hairs.RbcConfigureCrosshairs, TurnOffHairs, TurnOnHairs,
    Tk_IsMapped, the_window.
  open_graph graph; cbn; tests; reflexivity.
Qed.

Lemma step_parity e graph :
  visible (crosshairs (fst (step e graph)))
  = xorb (visible (crosshairs graph))
         (Nat.odd (List.length (snd (step e graph)))).
Proof.
  destruct e; cbn [Hairs.step].
  - unfold Hairs.ConfigureOp.
    destruct (the_window graph) as [tkwin|] eqn:Hw; cbn;
      [|now rewrite xorb_false_r].
    destruct ((argc args =? 3) || (argc args =? 4)); cbn;
      [now rewrite xorb_false_r|].
    destruct (parsed args) as [o|]; cbn; [|now rewrite xorb_false_r].
    set (g := set_crosshairs _ graph).
    pose proof (RbcConfigureCrosshairs_parity g) as H.
    destruct (RbcConfigureCrosshairs g) as [g' reqs]. exact H.
  - apply RbcConfigureCrosshairs_parity.
  - unfold RbcEnableCrosshairs, TurnOnHairs, Tk_IsMapped, the_window.
    open_graph graph; cbn; tests; reflexivity.
  - unfold RbcDisableCrosshairs, TurnOffHairs, Tk_IsMapped, the_window.
    open_graph graph; cbn; tests; reflexivity.
  - cbn. now rewrite xorb_false_r.
  - unfold OnOp, TurnOnHairs, Tk_IsMapped, the_window.
    open_graph graph; cbn; tests; reflexivity.
  - unfold OffOp, TurnOffHairs, Tk_IsMapped, the_window.
    open_graph graph; cbn; tests; reflexivity.
  - unfold ToggleOp, TurnOffHairs, TurnOnHairs, Tk_IsMapped, the_window.
    open_graph graph; cbn; tests; reflexivity.
  - cbn. now rewrite xorb_false_r.
  - cbn. now rewrite xorb_false_r.
  - cbn. now rewrite xorb_false_r.
Qed.

(** X1.  Over every history, of operations and of changes to the window
    and the layout alike, [visible] keeps track of the parity of the
    segments sent to the server: it is flipped exactly when the number of
    [XDrawSegments] requests issued is odd. *)
Theorem visible_is_parity_of_requests (es : list Event) (graph : RbcGraph) :
  visible (crosshairs (fst (run es graph)))
  = xorb (visible (crosshairs graph))
         (Nat.odd (List.length (snd (run es graph)))).
Proof.
  revert graph. induction es as [|e es IH]; intros graph.
  - cbn. now rewrite xorb_false_r.
  - cbn [Hairs.run].
    pose proof (step_parity e graph) as Hs.
    destruct (step e graph) as [g1 r1]. cbn [fst snd] in Hs.
    specialize (IH g1).
    destruct (run es g1) as [g2 r2]. cbn [fst snd] in *.
    rewrite IH, Hs, length_app, Nat.odd_add.
    now rewrite xorb_assoc.
Qed.

(** ** Erasing what was drawn *)

Ltac on_display Hd :=
  unfold same_display, the_window in Hd; cbn in Hd;
  try (apply Z.eqb_eq in Hd; subst).

Ltac traced H :=
  first [ solve [repeat constructor]
        | exfalso; revert H; unfold drawn_is_shown, window_mapped,
            the_window, Tk_IsMapped; cbn; intuition congruence ].

Lemma RbcConfigureCrosshairs_screen graph :
  (visible (crosshairs graph) = true -> window_mapped graph = true) ->
  same_display graph = true ->
  screen_trace (on_screen graph) (snd (RbcConfigureCrosshairs graph))
               (on_screen (fst (RbcConfigureCrosshairs graph))).
Proof.
  unfold Hairs.RbcConfigureCrosshairs, TurnOffHairs, TurnOnHairs,
    Tk_IsMapped, the_window, on_screen, window_mapped.
  open_graph graph; cbn; intros Hg Hd; on_display Hd; tests;
    first [ solve [repeat constructor]
          | specialize (Hg eq_refl); discriminate ].
Qed.

Lemma RbcConfigureCrosshairs_same_display graph :
  same_display (fst (RbcConfigureCrosshairs graph)) = same_display graph.
Proof.
  unfold Hairs.RbcConfigureCrosshairs, TurnOffHairs, TurnOnHairs,
    Tk_IsMapped, the_window, same_display.
  open_graph graph; cbn; tests; reflexivity.
Qed.

Lemma step_same_display e graph :
  orderly_event e graph = true ->
  same_display graph = true ->
  same_display (fst (step e graph)) = true.
Proof.
  intros Ho Hd. destruct e; cbn [Hairs.step]; try exact Hd.
  - unfold Hairs.ConfigureOp.
    destruct (the_window graph) as [tkwin|] eqn:Hw; cbn; [|exact Hd].
    destruct ((argc args =? 3) || (argc args =? 4)); cbn; [exact Hd|].
    destruct (parsed args) as [o|]; cbn; [|exact Hd].
    set (g := set_crosshairs _ graph).
    pose proof (RbcConfigureCrosshairs_same_display g) as H.
    destruct (RbcConfigureCrosshairs g) as [g' reqs]. cbn [fst] in *.
    now rewrite H.
  - now rewrite RbcConfigureCrosshairs_same_display.
  - revert Hd. unfold RbcEnableCrosshairs, TurnOnHairs, Tk_IsMapped,
      the_window, same_display.
    open_graph graph; cbn; intros Hd; tests; assumption.
  - revert Hd. unfold RbcDisableCrosshairs, TurnOffHairs, Tk_IsMapped,
      the_window, same_display.
    open_graph graph; cbn; intros Hd; tests; assumption.
  - revert Hd. unfold OnOp, TurnOnHairs, Tk_IsMapped, the_window,
      same_display.
    open_graph graph; cbn; intros Hd; tests; assumption.
  - revert Hd. unfold OffOp, TurnOffHairs, Tk_IsMapped, the_window,
      same_display.
    open_graph graph; cbn; intros Hd; tests; assumption.
  - revert Hd. unfold ToggleOp, TurnOffHairs, TurnOnHairs, Tk_IsMapped,
      the_window, same_display.
    open_graph graph; cbn; intros Hd; tests; assumption.
  - cbn in Ho. now apply andb_true_iff in Ho as [Ho _].
Qed.

Lemma step_screen e graph :
  drawn_is_shown graph ->
  same_display graph = true ->
  orderly_event e graph = true ->
  screen_trace (on_screen graph) (snd (step e graph))
               (on_screen (fst (step e graph))).
Proof.
  intros H Hd Ho. destruct e; cbn [Hairs.step].
  - unfold Hairs.ConfigureOp.
    destruct (the_window graph) as [tkwin|] eqn:Hw; cbn; [|constructor].
    destruct ((argc args =? 3) || (argc args =? 4)); cbn; [constructor|].
    destruct (parsed args) as [o|]; cbn; [|constructor].
    set (g := set_crosshairs _ graph).
    pose proof (RbcConfigureCrosshairs_screen g) as Ht.
    change (on_screen graph) with (on_screen g).
    destruct (RbcConfigureCrosshairs g) as [g' reqs].
    apply Ht; [|exact Hd]. intros Hv. now apply H.
  - apply RbcConfigureCrosshairs_screen; [|exact Hd].
    intros Hv. now apply H.
  - revert H Hd.
    unfold RbcEnableCrosshairs, TurnOnHairs, Tk_IsMapped, the_window,
      on_screen.
    open_graph graph; cbn; intros H Hd; on_display Hd; tests; traced H.
  - revert H Hd.
    unfold RbcDisableCrosshairs, TurnOffHairs, Tk_IsMapped, the_window,
      on_screen.
    open_graph graph; cbn; intros H Hd; on_display Hd; tests; traced H.
  - revert Ho. unfold RbcUpdateCrosshairs, on_screen, the_window.
    open_graph graph; cbn; intros Ho; try discriminate; constructor.
  - revert H Hd.
    unfold OnOp, TurnOnHairs, Tk_IsMapped, the_window, on_screen.
    open_graph graph; cbn; intros H Hd; on_display Hd; tests; traced H.
  - revert H Hd.
    unfold OffOp, TurnOffHairs, Tk_IsMapped, the_window, on_screen.
    open_graph graph; cbn; intros H Hd; on_display Hd; tests; traced H.
  - revert H Hd.
    unfold ToggleOp, TurnOffHairs, TurnOnHairs, Tk_IsMapped, the_window,
      on_screen.
    open_graph graph; cbn; intros H Hd; on_display Hd; tests; traced H.
  - (* the window changes *)
    cbn in Ho. apply andb_true_iff in Ho as [_ Ho]. cbn [fst snd].
    replace (on_screen (set_win w graph)) with (on_screen graph);
      [constructor|].
    revert Ho. unfold on_screen, same_drawable, window_mapped.
    change (crosshairs (set_win w graph)) with (crosshairs graph).
    change (display (set_win w graph)) with (display graph).
    destruct (visible (crosshairs graph)); cbn [negb orb].
    + destruct (the_window graph) as [w1|],
               (the_window (set_win w graph)) as [w2|];
        rewrite ?andb_false_r; try discriminate.
      intros Ho. apply andb_true_iff in Ho as [_ Ho].
      apply Z.eqb_eq in Ho. now rewrite Ho.
    + intros _. now destruct (the_window graph),
                             (the_window (set_win w graph)).
  - constructor.
  - constructor.
Qed.

Lemma orderly_event_keeps_window e graph :
  orderly_event e graph = true -> keeps_window e graph = true.
Proof.
  destruct e; try reflexivity. cbn.
  intros H. apply andb_true_iff in H as [_ H].
  destruct (visible (crosshairs graph)); [|reflexivity].
  cbn in *. now apply andb_true_iff in H as [H _].
Qed.

Lemma run_screen es : forall graph,
  drawn_is_shown graph ->
  same_display graph = true ->
  orderly es graph = true ->
  screen_trace (on_screen graph) (snd (run es graph))
               (on_screen (fst (run es graph)))
  /\ drawn_is_shown (fst (run es graph)).
Proof.
  induction es as [|e es IH]; intros graph H Hd Ho;
    [split; [constructor|exact H]|].
  cbn in Ho. apply andb_true_iff in Ho as [Ho1 Ho2].
  pose proof (step_screen e graph H Hd Ho1) as Ht.
  pose proof (step_same_display e graph Ho1 Hd) as Hd1.
  pose proof (step_shown RbcLineWidth RbcLineIsDashed e graph
                (orderly_event_keeps_window e graph Ho1) H) as H1.
  cbn [Hairs.run].
  destruct (step e graph) as [g1 r1]. cbn [fst snd] in *.
  destruct (IH g1 H1 Hd1 Ho2) as [IH1 IH2].
  destruct (run es g1) as [g2 r2]. cbn [fst snd] in *.
  split; [|exact IH2].
  eapply screen_trace_app; eassumption.
Qed.

(** X2.  From [RbcCreateCrosshairs] on, over every orderly history (the
    windows given to the graph are on its display, the window is neither
    withdrawn nor replaced while the hairs are shown, and the segments
    are resized only while the hairs are erased), the requests sent to
    the server pair up: each erasing request goes to the display and the
    drawable of the request that drew, with its graphics context and its
    segments, and what is left on the screen is exactly what the record
    says, the current hairs on the current window when [visible] and
    nothing otherwise; hairs marked [visible] are on a mapped window and
    not suppressed. *)
Theorem erase_matches_draw
        (graph : RbcGraph) (color : XColor) (init : option HairsOptions)
        (g0 : RbcGraph) (es : list Event) :
  RbcCreateCrosshairs graph color init = Some g0 ->
  same_display g0 = true ->
  orderly es g0 = true ->
  screen_trace None (snd (run es g0)) (on_screen (fst (run es g0)))
  /\ drawn_is_shown (fst (run es g0)).
Proof.
  intros Hc Hd Ho.
  pose proof (RbcCreateCrosshairs_shown graph color init g0 Hc) as H.
  pose proof (run_screen es g0 H Hd Ho) as Ht.
  replace (on_screen g0) with (@None Hairs_on_screen) in Ht; [exact Ht|].
  revert Hc. unfold RbcCreateCrosshairs.
  destruct (the_window graph) as [tkwin|] eqn:Hw; [|discriminate].
  destruct init; [|discriminate]. intros [= <-].
  unfold on_screen. change (the_window (set_crosshairs _ graph))
    with (the_window graph). now rewrite Hw.
Qed.

(** ** Configuring *)

(** X5.  With a window, [RbcConfigureCrosshairs] leaves a graphics
    context that draws with XOR, whose background is the plot background
    (white when none is set yet) and whose foreground, XOR-ed onto a
    background pixel, gives the pixel of the crosshair colour; its line
    width is [RbcLineWidth] of the configured width. *)
Theorem configured_gc_xors_to_colour (graph : RbcGraph) (tkwin : TkWindow) :
  the_window graph = Some tkwin ->
  exists G : GC,
    gc (crosshairs (fst (RbcConfigureCrosshairs graph))) = Some G
    /\ gc_function G = GXxor
    /\ gc_background G
       = match plotBg graph with
         | Some bg => pixel bg
         | None => white_pixel tkwin
         end
    /\ Z.lxor (gc_background G) (gc_foreground G)
       = pixel (colorPtr (crosshairs graph))
    /\ gc_line_width G = RbcLineWidth (lineWidth (crosshairs graph)).
Proof.
  intros Hw. unfold Hairs.RbcConfigureCrosshairs. rewrite Hw.
  destruct (TurnOffHairs tkwin (crosshairs graph)) as [c1 erased] eqn:Hoff.
  assert (Hc : colorPtr c1 = colorPtr (crosshairs graph)
               /\ lineWidth c1 = lineWidth (crosshairs graph)).
  { revert Hoff. unfold TurnOffHairs.
    destruct (Tk_IsMapped tkwin && visible (crosshairs graph));
      intros [= <- _]; auto. }
  destruct Hc as [Hcol Hlw].
  eexists. split.
  - destruct (negb (hidden _)).
    + destruct (TurnOnHairs graph _) as [c2 drawn] eqn:Hon. cbn.
      revert Hon. unfold TurnOnHairs. rewrite Hw.
      destruct (_ && _); [destruct (off_graph _ _)|];
        intros [= <- _]; reflexivity.
    + reflexivity.
  - cbn. rewrite Hcol, Hlw. repeat split.
    now rewrite <- Z.lxor_assoc, Z.lxor_nilpotent, Z.lxor_0_l.
Qed.

(** [RbcConfigureCrosshairs] in closed form, on a graph with a
    window. *)
Lemma RbcConfigureCrosshairs_eq graph tkwin :
  the_window graph = Some tkwin ->
  let c := crosshairs graph in
  let G := crosshairs_gc RbcLineWidth RbcLineIsDashed graph tkwin c in
  let S := crosshairs_segments graph c in
  let draws :=
    Tk_IsMapped tkwin && negb (hidden c) && negb (off_graph graph c) in
  RbcConfigureCrosshairs graph
  = (set_crosshairs
       (mkCrosshairs (hotSpot c)
                     (if Tk_IsMapped tkwin then draws else visible c)
                     (hidden c) (dashes c) (lineWidth c) S (colorPtr c)
                     (Some G))
       graph,
     (if Tk_IsMapped tkwin && visible c
      then [XDrawSegments (tk_display tkwin) (window_id tkwin)
                          (gc c) (segArr c)]
      else [])
     ++ (if draws
         then [XDrawSegments (display graph) (window_id tkwin) (Some G) S]
         else [])).
Proof.
  intros Hw. unfold Hairs.RbcConfigureCrosshairs, TurnOffHairs, TurnOnHairs.
  rewrite Hw. unfold off_graph.
  destruct graph as [w ? ? ? ? ? ? c]; destruct c as [? [|] [|] ? ? ? ? ?];
    destruct tkwin as [[|] ? ? ?]; cbn;
    try destruct (_ || _); reflexivity.
Qed.

(** X6.  Configuring again without any change in between leaves the
    graph as the first configuring left it, and what the second call
    sends cancels out: it erases the hairs that are shown and draws the
    same hairs again, or sends nothing. *)
Theorem reconfigure_is_idempotent (graph : RbcGraph) :
  let g1 := fst (RbcConfigureCrosshairs graph) in
  fst (RbcConfigureCrosshairs g1) = g1
  /\ xor_trace (shown g1) (snd (RbcConfigureCrosshairs g1)) (shown g1).
Proof.
  destruct (the_window graph) as [tkwin|] eqn:Hw.
  - rewrite (RbcConfigureCrosshairs_eq graph tkwin Hw). cbn [fst].
    set (g1 := set_crosshairs _ graph).
    assert (Hw1 : the_window g1 = Some tkwin) by exact Hw.
    rewrite (RbcConfigureCrosshairs_eq g1 tkwin Hw1). cbn [fst snd].
    unfold shown, g1, off_graph. cbn.
    destruct (Tk_IsMapped tkwin); cbn.
    + destruct (negb (hidden (crosshairs graph))); cbn;
        [|split; [reflexivity|constructor]].
      destruct (negb (_ || _)); cbn; split;
        first [reflexivity | repeat constructor].
    + split; [reflexivity|constructor].
  - assert (E : RbcConfigureCrosshairs graph = (graph, []))
      by (unfold Hairs.RbcConfigureCrosshairs; now rewrite Hw).
    rewrite E. cbn [fst]. rewrite E. split; [reflexivity|constructor].
Qed.

(** X21.  On a mapped window, configuring brings the plot in line with
    the record: afterwards the hairs are drawn exactly when they are not
    suppressed and the hot spot lies within the plot bounds (bounds
    included), both segments run through the hot spot across the plot,
    and what was sent erased the old hairs before drawing the new. *)
Theorem configure_draws_iff_wanted (graph : RbcGraph) (tkwin : TkWindow) :
  the_window graph = Some tkwin ->
  Tk_IsMapped tkwin = true ->
  let c := crosshairs graph in
  let g1 := fst (RbcConfigureCrosshairs graph) in
  (visible (crosshairs g1) = true <->
   hidden c = false
   /\ left graph <= x (hotSpot c) <= right graph
   /\ top graph <= y (hotSpot c) <= bottom graph)
  /\ segArr (crosshairs g1)
     = (mkXSegment (x (hotSpot c)) (bottom graph)
                   (x (hotSpot c)) (top graph),
        mkXSegment (left graph) (y (hotSpot c))
                   (right graph) (y (hotSpot c)))
  /\ xor_trace (shown graph) (snd (RbcConfigureCrosshairs graph)) (shown g1).
Proof.
  intros Hw Hm c g1. subst c g1.
  rewrite (RbcConfigureCrosshairs_eq graph tkwin Hw), Hm. cbn [fst snd].
  split; [|split; [reflexivity|]].
  - cbn. unfold off_graph.
    rewrite andb_true_iff, !negb_true_iff, !orb_false_iff.
    rewrite !Z.gtb_ltb, !Z.ltb_ge. intuition lia.
  - unfold shown. cbn.
    destruct (visible (crosshairs graph)), (negb (hidden (crosshairs graph)));
      cbn; try destruct (negb (off_graph graph (crosshairs graph)));
      repeat constructor.
Qed.

(** ** Segments and hot spot *)

Lemma RbcConfigureCrosshairs_through_hot_spot graph :
  through_hot_spot graph ->
  through_hot_spot (fst (RbcConfigureCrosshairs graph)).
Proof.
  unfold through_hot_spot, Hairs.RbcConfigureCrosshairs, TurnOffHairs,
    TurnOnHairs, Tk_IsMapped, the_window.
  open_graph graph; cbn; intros H; tests; auto.
Qed.

Lemma configured_through_hot_spot graph tkwin :
  the_window graph = Some tkwin ->
  through_hot_spot (fst (RbcConfigureCrosshairs graph)).
Proof.
  unfold through_hot_spot, Hairs.RbcConfigureCrosshairs, TurnOffHairs,
    TurnOnHairs, Tk_IsMapped, the_window.
  open_graph graph; cbn; intros H; tests; try discriminate; auto.
Qed.

Lemma step_through_hot_spot e graph :
  through_hot_spot graph -> through_hot_spot (fst (step e graph)).
Proof.
  intros H. destruct e; cbn [Hairs.step]; try exact H.
  - unfold Hairs.ConfigureOp.
    destruct (the_window graph) as [tkwin|] eqn:Hw; cbn; [|exact H].
    destruct ((argc args =? 3) || (argc args =? 4)); cbn; [exact H|].
    destruct (parsed args) as [o|]; cbn; [|exact H].
    set (g := set_crosshairs _ graph).
    pose proof (configured_through_hot_spot g tkwin Hw) as Hg.
    now destruct (RbcConfigureCrosshairs g).
  - now apply RbcConfigureCrosshairs_through_hot_spot.
  - revert H.
    unfold through_hot_spot, RbcEnableCrosshairs, TurnOnHairs, Tk_IsMapped,
      the_window.
    open_graph graph; cbn; intros H; tests; auto.
  - revert H.
    unfold through_hot_spot, RbcDisableCrosshairs, TurnOffHairs, Tk_IsMapped,
      the_window.
    open_graph graph; cbn; intros H; tests; auto.
  - revert H.
    unfold through_hot_spot, OnOp, TurnOnHairs, Tk_IsMapped, the_window.
    open_graph graph; cbn; intros H; tests; auto.
  - revert H.
    unfold through_hot_spot, OffOp, TurnOffHairs, Tk_IsMapped, the_window.
    open_graph graph; cbn; intros H; tests; auto.
  - revert H.
    unfold through_hot_spot, ToggleOp, TurnOffHairs, TurnOnHairs, Tk_IsMapped,
      the_window.
    open_graph graph; cbn; intros H; tests; auto.
Qed.

(** X9.  Once the segments pass through the hot spot (as they do after
    any configuring with a window), they do so after every history: a
    [configure] command that moves the hot spot moves the segments with
    it, and no other operation moves either. *)
Theorem hairs_stay_through_hot_spot (es : list Event) (graph : RbcGraph) :
  through_hot_spot graph -> through_hot_spot (fst (run es graph)).
Proof.
  revert graph. induction es as [|e es IH]; intros graph H; [exact H|].
  cbn [Hairs.run].
  pose proof (step_through_hot_spot e graph H) as H1.
  destruct (step e graph) as [g1 r1]. cbn [fst] in H1.
  specialize (IH g1 H1). now destruct (run es g1).
Qed.

(** X7.  On a graph whose segments pass through the hot spot,
    [RbcUpdateCrosshairs] gives exactly the segments a full configuring
    computes from the current plot bounds: resizing the plot needs no
    reconfiguring to keep the hairs spanning it. *)
Theorem update_gives_configured_segments (graph : RbcGraph) :
  through_hot_spot graph ->
  segArr (crosshairs (fst (RbcUpdateCrosshairs graph)))
  = crosshairs_segments graph (crosshairs graph)
  /\ forall tkwin, the_window graph = Some tkwin ->
       segArr (crosshairs (fst (RbcUpdateCrosshairs graph)))
       = segArr (crosshairs (fst (RbcConfigureCrosshairs graph))).
Proof.
  unfold through_hot_spot, RbcUpdateCrosshairs, crosshairs_segments.
  intros (H1 & H2 & H3 & H4). cbn. rewrite H1, H2, H3, H4.
  split; [reflexivity|].
  intros tkwin Hw.
  unfold Hairs.RbcConfigureCrosshairs, TurnOffHairs, TurnOnHairs, Tk_IsMapped.
  rewrite Hw. clear. unfold crosshairs_segments.
  destruct graph as [w ? ? ? ? ? ? c]; destruct c as [? [|] [|] ? ? ? ? ?];
    destruct tkwin as [[|] ? ? ?]; cbn; tests; reflexivity.
Qed.

(** ** Graphics contexts *)

Lemma configure_gc_balance graph :
  held graph ++ obtained (configure_gc_calls RbcLineWidth RbcLineIsDashed graph)
  = freed (configure_gc_calls RbcLineWidth RbcLineIsDashed graph)
    ++ held (fst (RbcConfigureCrosshairs graph)).
Proof.
  unfold held, configure_gc_calls, Hairs.RbcConfigureCrosshairs,
    TurnOffHairs, TurnOnHairs, Tk_IsMapped, the_window.
  destruct graph as [w ? ? ? ? ? ? c]; destruct c as [? [|] [|] ? ? ? ? [old|]];
    destruct w as [[[[|] ? ? ?]|]|]; cbn; tests;
    rewrite ?app_nil_r; reflexivity.
Qed.

Lemma step_gc_balance e graph :
  held graph ++ obtained (step_gc_calls e graph)
  = freed (step_gc_calls e graph) ++ held (fst (step e graph)).
Proof.
  destruct e; cbn [Observed.step_gc_calls Hairs.step].
  - unfold Hairs.ConfigureOp.
    destruct (the_window graph) as [tkwin|] eqn:Hw; cbn;
      [|now rewrite app_nil_r].
    destruct ((argc args =? 3) || (argc args =? 4)); cbn;
      [now rewrite app_nil_r|].
    destruct (parsed args) as [o|]; cbn; [|now rewrite app_nil_r].
    set (g := set_crosshairs _ graph).
    pose proof (configure_gc_balance g) as H.
    destruct (RbcConfigureCrosshairs g) as [g' reqs]. exact H.
  - apply configure_gc_balance.
  - unfold held, RbcEnableCrosshairs, TurnOnHairs, Tk_IsMapped, the_window.
    open_graph graph; cbn; tests; now rewrite app_nil_r.
  - unfold held, RbcDisableCrosshairs, TurnOffHairs, Tk_IsMapped, the_window.
    open_graph graph; cbn; tests; now rewrite app_nil_r.
  - cbn. now rewrite app_nil_r.
  - unfold held, OnOp, TurnOnHairs, Tk_IsMapped, the_window.
    open_graph graph; cbn; tests; now rewrite app_nil_r.
  - unfold held, OffOp, TurnOffHairs, Tk_IsMapped, the_window.
    open_graph graph; cbn; tests; now rewrite app_nil_r.
  - unfold held, ToggleOp, TurnOffHairs, TurnOnHairs, Tk_IsMapped,
      the_window.
    open_graph graph; cbn; tests; now rewrite app_nil_r.
  - cbn. now rewrite app_nil_r.
  - cbn. now rewrite app_nil_r.
  - cbn. now rewrite app_nil_r.
Qed.

Lemma obtained_app l1 l2 : obtained (l1 ++ l2) = obtained l1 ++ obtained l2.
Proof.
  induction l1 as [|[g|g] l1 IH]; cbn; now rewrite ?IH.
Qed.

Lemma freed_app l1 l2 : freed (l1 ++ l2) = freed l1 ++ freed l2.
Proof.
  induction l1 as [|[g|g] l1 IH]; cbn; now rewrite ?IH.
Qed.

Lemma run_gc_balance es : forall graph,
  held graph ++ obtained (run_gc_calls es graph)
  = freed (run_gc_calls es graph) ++ held (fst (run es graph)).
Proof.
  induction es as [|e es IH]; intros graph; cbn [Observed.run_gc_calls Hairs.run].
  - cbn. now rewrite app_nil_r.
  - pose proof (step_gc_balance e graph) as Hs.
    destruct (step e graph) as [g1 r1]. cbn [fst] in *.
    specialize (IH g1).
    destruct (run es g1) as [g2 r2]. cbn [fst] in *.
    rewrite obtained_app, freed_app, app_assoc, Hs, <- !app_assoc.
    now rewrite IH.
Qed.

(** X8.  From [RbcCreateCrosshairs] through any history to
    [RbcDestroyCrosshairs], the graphics contexts freed are exactly the
    contexts obtained, in the same order: each configuring frees the
    context of the one before, destroying frees the last, none is freed
    twice and none is left. *)
Theorem every_gc_is_freed
        (graph : RbcGraph) (color : XColor) (init : option HairsOptions)
        (g0 : RbcGraph) (es : list Event) :
  RbcCreateCrosshairs graph color init = Some g0 ->
  let log := run_gc_calls es g0 ++ RbcDestroyCrosshairs (fst (run es g0)) in
  freed log = obtained log.
Proof.
  intros Hc log. subst log.
  pose proof (run_gc_balance es g0) as H.
  assert (H0 : held g0 = []).
  { revert Hc. unfold RbcCreateCrosshairs.
    destruct (the_window graph); [|discriminate].
    destruct init; [|discriminate]. now intros [= <-]. }
  rewrite H0 in H. cbn [app] in H.
  rewrite obtained_app, freed_app, H.
  unfold RbcDestroyCrosshairs, held.
  destruct (gc (crosshairs (fst (run es g0)))); cbn; now rewrite ?app_nil_r.
Qed.

End Parametric.

(** ** Round trips *)

(** X3.  On hairs that are not drawn, enabling and then disabling gives
    the graph back as it was, and the requests sent cancel out: none, or
    one drawing and one erasing the same segments with the same
    context. *)
Theorem enable_then_disable_restores (graph : RbcGraph) :
  visible (crosshairs graph) = false ->
  let '(g1, r1) := RbcEnableCrosshairs graph in
  let '(g2, r2) := RbcDisableCrosshairs g1 in
  g2 = graph /\ xor_trace None (r1 ++ r2) None.
Proof.
  unfold RbcEnableCrosshairs, RbcDisableCrosshairs, TurnOnHairs,
    TurnOffHairs, Tk_IsMapped, the_window.
  open_graph graph; cbn; intros H; try discriminate; tests; split;
    first [reflexivity | solve [repeat constructor]].
Qed.

(** X4.  On a graph with a window whose hairs are suppressed and not
    drawn, [on] followed by [off], and [toggle] followed by [toggle],
    both return [TCL_OK] twice, give the graph back as it was, and send
    requests that cancel out. *)
Theorem on_then_off_restores (graph : RbcGraph) (tkwin : TkWindow) :
  the_window graph = Some tkwin ->
  hidden (crosshairs graph) = true ->
  visible (crosshairs graph) = false ->
  (let '(g1, s1, r1) := OnOp graph in
   let '(g2, s2, r2) := OffOp g1 in
   g2 = graph /\ s1 = TCL_OK /\ s2 = TCL_OK
   /\ xor_trace None (r1 ++ r2) None)
  /\ (let '(g1, s1, r1) := ToggleOp graph in
      let '(g2, s2, r2) := ToggleOp g1 in
      g2 = graph /\ s1 = TCL_OK /\ s2 = TCL_OK
      /\ xor_trace None (r1 ++ r2) None).
Proof.
  unfold OnOp, OffOp, ToggleOp, TurnOnHairs, TurnOffHairs, Tk_IsMapped,
    the_window.
  open_graph graph; cbn; intros Hw Hh Hv; try discriminate; tests;
    repeat split; solve [repeat constructor].
Qed.

(** ** Settling *)

(** X19.  [RbcDisableCrosshairs] changes nothing but [visible]; on a
    mapped window with [hidden] false it leaves the hairs erased; with
    [hidden] true it does nothing at all, whatever [visible] says; and a
    second call changes nothing and sends nothing. *)
Theorem disable_settles (graph : RbcGraph) :
  let '(g1, r1) := RbcDisableCrosshairs graph in
  RbcDisableCrosshairs g1 = (g1, [])
  /\ g1 = set_crosshairs
            (set_visible (visible (crosshairs g1)) (crosshairs graph)) graph
  /\ (window_mapped graph = true ->
      hidden (crosshairs graph) = false ->
      visible (crosshairs g1) = false)
  /\ (hidden (crosshairs graph) = true -> g1 = graph /\ r1 = []).
Proof.
  unfold RbcDisableCrosshairs, TurnOffHairs, Tk_IsMapped, the_window,
    window_mapped.
  open_graph graph; cbn; repeat split; intros; congruence.
Qed.

(** X20.  [on] and [off] are idempotent: a second call gives the same
    status, changes nothing and sends nothing.  [on] always returns
    [TCL_OK] and leaves [hidden] false, with or without a window; [off]
    leaves [hidden] true whenever it returns [TCL_OK]. *)
Theorem on_and_off_are_idempotent (graph : RbcGraph) :
  (let '(g1, s1, r1) := OnOp graph in
   OnOp g1 = (g1, TCL_OK, [])
   /\ s1 = TCL_OK
   /\ hidden (crosshairs g1) = false)
  /\ (let '(g1, s1, r1) := OffOp graph in
      OffOp g1 = (g1, s1, [])
      /\ (s1 = TCL_OK -> hidden (crosshairs g1) = true)).
Proof.
  unfold OnOp, OffOp, TurnOnHairs, TurnOffHairs, Tk_IsMapped, the_window.
  open_graph graph; cbn; tests; repeat split; intros; congruence.
Qed.

(** ** Instances *)

Import Samples.

Lemma erase_matches_draw_witness :
  let es := [Configure (at_position 50 50); On; Disable;
             LayoutChanged 10 300 10 150; Update; Enable;
             WindowChanged (Some (Some shown_window)); Toggle; Toggle] in
  let g0 := graph_on (Some (Some shown_window)) in
  screen_trace None (snd (run line_width is_dashed es g0))
               (on_screen (fst (run line_width is_dashed es g0)))
  /\ drawn_is_shown (fst (run line_width is_dashed es g0)).
Proof.
  apply (erase_matches_draw line_width is_dashed
           (graph_on (Some (Some shown_window))) (mkXColor 0)
           (Some no_option)).
  - reflexivity.
  - reflexivity.
  - vm_compute. reflexivity.
Defined.

Lemma configured_gc_xors_to_colour_witness :
  exists G : GC,
    gc (crosshairs
          (fst (RbcConfigureCrosshairs line_width is_dashed drawn_graph)))
    = Some G
    /\ gc_function G = GXxor
    /\ gc_background G = 16777215
    /\ Z.lxor (gc_background G) (gc_foreground G) = 0
    /\ gc_line_width G = 0.
Proof.
  exact (configured_gc_xors_to_colour line_width is_dashed drawn_graph
           shown_window eq_refl).
Defined.

Lemma hairs_stay_through_hot_spot_witness :
  through_hot_spot
    (fst (run line_width is_dashed
              [LayoutChanged 0 400 0 300; Update;
               Configure (at_position 70 80); Off; On]
              drawn_graph)).
Proof.
  apply hairs_stay_through_hot_spot. unfold through_hot_spot. cbn.
  repeat split; reflexivity.
Defined.

Lemma update_gives_configured_segments_witness :
  segArr (crosshairs (fst (RbcUpdateCrosshairs
                             (set_bounds 0 400 0 300 drawn_graph))))
  = (mkXSegment 50 300 50 0, mkXSegment 0 50 400 50).
Proof.
  refine (proj1 (update_gives_configured_segments line_width is_dashed
                   (set_bounds 0 400 0 300 drawn_graph) _)).
  unfold through_hot_spot. cbn. repeat split; reflexivity.
Defined.

Lemma every_gc_is_freed_witness :
  let g0 := graph_on (Some (Some shown_window)) in
  let log :=
    run_gc_calls line_width is_dashed kept_history g0
    ++ RbcDestroyCrosshairs
         (fst (run line_width is_dashed kept_history g0)) in
  freed log = obtained log.
Proof.
  exact (every_gc_is_freed line_width is_dashed
           (graph_on (Some (Some shown_window))) (mkXColor 0)
           (Some no_option) (graph_on (Some (Some shown_window)))
           kept_history eq_refl).
Defined.

Lemma configure_draws_iff_wanted_witness :
  visible (crosshairs
             (fst (RbcConfigureCrosshairs line_width is_dashed
                     (graph_with (hairs_at 50 50 false false)))))
  = true.
Proof.
  apply (configure_draws_iff_wanted line_width is_dashed
           (graph_with (hairs_at 50 50 false false)) shown_window
           eq_refl eq_refl).
  cbn. repeat split; lia.
Defined.

Lemma enable_then_disable_restores_witness :
  let '(g1, r1) :=
    RbcEnableCrosshairs (graph_with (hairs_at 50 50 false false)) in
  let '(g2, r2) := RbcDisableCrosshairs g1 in
  g2 = graph_with (hairs_at 50 50 false false)
  /\ xor_trace None (r1 ++ r2) None.
Proof.
  exact (enable_then_disable_restores
           (graph_with (hairs_at 50 50 false false)) eq_refl).
Defined.

Lemma on_then_off_restores_witness :
  let '(g1, s1, r1) := OnOp (graph_with (hairs_at 50 50 false true)) in
  let '(g2, s2, r2) := OffOp g1 in
  g2 = graph_with (hairs_at 50 50 false true)
  /\ s1 = TCL_OK /\ s2 = TCL_OK /\ xor_trace None (r1 ++ r2) None.
Proof.
  exact (proj1 (on_then_off_restores
                  (graph_with (hairs_at 50 50 false true)) shown_window
                  eq_refl eq_refl eq_refl)).
Defined.

End HairsMore.

(* ================================================================== *)
(** * Part VIII.  Further properties of the print bridge                *)
(* ================================================================== *)

Module PrintMore.

Import WinPrint Stated Observed PrintFacts.

Local Open Scope print_scope.

(** ** WinGetSystemPalette *)

(** X10.  [WinGetSystemPalette] returns a palette exactly when the
    display is palette-based and [CreatePalette] succeeds; on every path
    it has released the desktop DC and the memory it allocated, so the
    palette it returns is all it leaves held. *)
Theorem WinGetSystemPalette_balanced (W : Win32) :
  value (WinGetSystemPalette W)
  = Some (RC_PALETTE_set W && CreatePalette_ok W)
  /\ leaked (calls (WinGetSystemPalette W))
     = (if RC_PALETTE_set W && CreatePalette_ok W then [Palette] else [])
  /\ times_opened DesktopDC (calls (WinGetSystemPalette W)) = 1%nat
  /\ times_closed DesktopDC (calls (WinGetSystemPalette W)) = 1%nat.
Proof.
  unfold WinGetSystemPalette, call, when, ret.
  destruct (RC_PALETTE_set W), (CreatePalette_ok W); vm_compute; auto.
Qed.

(** ** WinCanvasPrint *)

(** Every path of [WinCanvasPrint] at once: its status, the pages it
    prints and the handles it leaves. *)
Lemma WinCanvasPrint_paths (W : Win32) (objc : Z) (path : string) :
  let m := WinCanvasPrint W objc path in
  status m
  = Return (if canvas_succeeds W objc path then TCL_OK else TCL_ERROR)
  /\ count_calls is_StretchDIBits (calls m)
     = (if canvas_succeeds W objc path then 1%nat else 0%nat)
  /\ forallb (fun h =>
                Nat.leb (times_closed h (calls m)) (times_opened h (calls m))
                && Nat.leb (times_opened h (calls m)) 1)
             all_handles = true
  /\ (if dialog_refused W objc path
      then hd_error (leaked (calls m)) = Some WindowDC
           /\ existsb (Handle_eqb PrinterDC) (leaked (calls m)) = false
      else if job_not_started W objc path
           then leaked (calls m) = [PrinterDC]
           else leaked (calls m) = []).
Proof.
  unfold WinCanvasPrint, WinGetSystemPalette, canvas_done, call, answer,
    when, ret, leave, status, calls, canvas_succeeds, dialog_refused,
    job_not_started.
  destruct (objc <? 2); [vm_compute; auto|].
  destruct (Tk_NameToWindow W path) as [tkwin|]; [|vm_compute; auto].
  destruct (has_id tkwin), (CreateDIBSection_ok W),
    (CreateCompatibleDC_ok W), (RC_PALETTE_set W), (CreatePalette_ok W);
    cbv beta iota zeta delta [bind app negb andb];
    (destruct (BitBlt_ok W); [|vm_compute; auto]);
    (destruct (GetObject_ret W =? 0); [vm_compute; auto|]);
    (destruct (PrintDlg_ok W); [|vm_compute; auto]);
    (destruct (pd_hDC W); [|vm_compute; auto]);
    (destruct (StartDoc_ret W <=? 0); [vm_compute; auto|]);
    (destruct (StartPage_ret W 0 <=? 0); vm_compute; auto).
Qed.

Lemma all_handles_complete (h : Handle) : In h all_handles.
Proof. destruct h; cbn; tauto. Qed.

(** X11.  [WinCanvasPrint] always returns a status, and returns [TCL_OK]
    exactly when every step succeeded: at least two words on the command
    line, the window found, the window copied and the bitmap read back,
    the dialog returning a printer DC, and the document and the page
    started.  It prints one page in that case and nothing in any
    other. *)
Theorem WinCanvasPrint_succeeds_iff (W : Win32) (objc : Z) (path : string) :
  let m := WinCanvasPrint W objc path in
  (status m = Return TCL_OK \/ status m = Return TCL_ERROR)
  /\ (status m = Return TCL_OK <->
      2 <= objc
      /\ (exists tkwin, Tk_NameToWindow W path = Some tkwin)
      /\ BitBlt_ok W = true
      /\ GetObject_ret W <> 0
      /\ PrintDlg_ok W = true
      /\ pd_hDC W = true
      /\ 0 < StartDoc_ret W
      /\ 0 < StartPage_ret W 0)
  /\ count_calls is_StretchDIBits (calls m)
     = (if canvas_succeeds W objc path then 1%nat else 0%nat).
Proof.
  intros m. subst m.
  destruct (WinCanvasPrint_paths W objc path) as (Hs & Hp & _ & _).
  assert (Hiff : canvas_succeeds W objc path = true <->
                 2 <= objc
                 /\ (exists tkwin, Tk_NameToWindow W path = Some tkwin)
                 /\ BitBlt_ok W = true
                 /\ GetObject_ret W <> 0
                 /\ PrintDlg_ok W = true
                 /\ pd_hDC W = true
                 /\ 0 < StartDoc_ret W
                 /\ 0 < StartPage_ret W 0).
  { unfold canvas_succeeds.
    rewrite !andb_true_iff, !negb_true_iff, Z.ltb_ge, Z.eqb_neq, !Z.leb_gt.
    destruct (Tk_NameToWindow W path) as [tkwin|].
    - intuition eauto.
    - split; [intuition discriminate|].
      intros (_ & [tkwin H] & _). discriminate. }
  split; [|split; [split|]].
  - rewrite Hs. destruct (canvas_succeeds W objc path); auto.
  - rewrite Hs. intros H. apply Hiff.
    destruct (canvas_succeeds W objc path); [reflexivity|discriminate].
  - intros H. apply Hiff in H. rewrite Hs, H. reflexivity.
  - exact Hp.
Qed.

(** X12.  [WinCanvasPrint] never releases a handle more often than it
    obtained it, and obtains none twice.  It leaves handles held in two
    situations only: when the print dialog does not return [TRUE] (the
    window DC at least, never a printer DC), and when the document or the
    page cannot be started (the printer DC alone).  Everywhere else,
    errors included, it releases all it obtained. *)
Theorem WinCanvasPrint_leaks_only_around_dialog
        (W : Win32) (objc : Z) (path : string) :
  let log := calls (WinCanvasPrint W objc path) in
  (forall h, (times_closed h log <= times_opened h log <= 1)%nat)
  /\ (leaked log = []
      /\ dialog_refused W objc path = false
      /\ job_not_started W objc path = false
      \/ dialog_refused W objc path = true
         /\ hd_error (leaked log) = Some WindowDC
         /\ existsb (Handle_eqb PrinterDC) (leaked log) = false
      \/ job_not_started W objc path = true
         /\ leaked log = [PrinterDC]).
Proof.
  intros log. subst log.
  destruct (WinCanvasPrint_paths W objc path) as (_ & _ & Hb & Hl).
  split.
  - intros h. rewrite forallb_forall in Hb.
    specialize (Hb h (all_handles_complete h)).
    apply andb_true_iff in Hb as [H1 H2].
    apply Nat.leb_le in H1, H2. auto.
  - destruct (dialog_refused W objc path); [right; left; tauto|].
    destruct (job_not_started W objc path); [right; right; tauto|].
    left; auto.
Qed.

(** ** The page loop of WinTextPrint *)

Section Pages.

Variable W : Win32.
Variable r : RECT.

(** The count the search settles on is at least one character, at most
    what is left, and never less than half of it, rounded down. *)
Lemma fit_search_takes_half (begin high : Z) :
  0 < high ->
  exists low' high' textcount,
    fit_search W r begin 0 high high
    = (Go (low', high', textcount), [MeasureText begin high])
    /\ 1 <= textcount <= high
    /\ high <= 2 * textcount + 1.
Proof.
  intros Hh.
  destruct (fit_search_measures_once W r begin high Hh) as (Hc & lo & hi & Hv).
  unfold value, calls in *.
  destruct (fit_search W r begin 0 high high) as [[[[lo' hi'] c]| | |] l];
    cbn [fst snd] in *; try discriminate.
  injection Hv as -> -> ->. subst l.
  eexists _, _, _. split; [reflexivity|].
  destruct (_ <? _); [lia|].
  destruct (Z.eqb_spec high 1); [lia|].
  pose proof (Z.quot_rem' high 2) as Hq.
  assert (Hr : 0 <= Z.rem high 2 < 2) by (apply Z.rem_bound_pos; lia).
  lia.
Qed.

(** One pass of the page loop, when its condition holds. *)
Lemma print_pages_pass (n : nat) (printlen page output text_done : Z) :
  (output >=? 0) && (text_done <? printlen) = true ->
  exists textcount,
    1 <= textcount <= printlen - text_done
    /\ printlen - text_done <= 2 * textcount + 1
    /\ print_pages W (S n) printlen r page output text_done
       = if StartPage_ret W page =? 0 then
           (Return TCL_ERROR,
            [StartPage; AppendResult "unable to start page"])
         else if DrawText_ret W text_done textcount =? 0 then
           (Return TCL_ERROR,
            [StartPage; SetMapMode; SelectFont;
             MeasureText text_done (printlen - text_done);
             DrawText text_done textcount;
             AppendResult "unable to draw text"])
         else if EndPage_ret W page =? 0 then
           (Return TCL_ERROR,
            [StartPage; SetMapMode; SelectFont;
             MeasureText text_done (printlen - text_done);
             DrawText text_done textcount; EndPage;
             AppendResult "unable to end page"])
         else
           (status (print_pages W n printlen r (page + 1)
                                (EndPage_ret W page)
                                (text_done + textcount)),
            [StartPage; SetMapMode; SelectFont;
             MeasureText text_done (printlen - text_done);
             DrawText text_done textcount; EndPage]
            ++ calls (print_pages W n printlen r (page + 1)
                                  (EndPage_ret W page)
                                  (text_done + textcount))).
Proof.
  intros E. cbn [print_pages]. rewrite E.
  apply andb_true_iff in E as [_ E]. apply Z.ltb_lt in E.
  destruct (fit_search_takes_half text_done (printlen - text_done))
    as (lo & hi & c & Hf & Hc & Hhalf); [lia|].
  exists c. split; [exact Hc|]. split; [exact Hhalf|].
  rewrite Hf. unfold answer, call, leave, bind, status, calls. cbn.
  destruct (StartPage_ret W page =? 0); [reflexivity|].
  destruct (DrawText_ret W text_done c =? 0); [reflexivity|].
  destruct (EndPage_ret W page =? 0); [reflexivity|].
  now destruct (print_pages W n printlen r (page + 1) (EndPage_ret W page)
                            (text_done + c)).
Qed.

(** When the condition of the loop fails, it is left at once. *)
Lemma print_pages_exit (n : nat) (printlen page output text_done : Z) :
  (output >=? 0) && (text_done <? printlen) = false ->
  print_pages W n printlen r page output text_done = (Go tt, []).
Proof. intros E. destruct n; cbn [print_pages]; now rewrite E. Qed.

Lemma print_pages_timeout (printlen page output text_done : Z) :
  (output >=? 0) && (text_done <? printlen) = true ->
  print_pages W 0 printlen r page output text_done = (Timeout, []).
Proof. intros E. cbn [print_pages]. now rewrite E. Qed.

Lemma chained_first (from count : Z) (l : list (Z * Z)) :
  1 <= count ->
  chained from ((from, count) :: l) = chained (from + count) l.
Proof.
  intros H. cbn [chained]. rewrite Z.eqb_refl.
  destruct (Z.leb_spec 1 count); [reflexivity|lia].
Qed.

(** The pages drawn follow one another through the buffer. *)
Lemma print_pages_chained (n : nat) (printlen : Z) :
  forall page output text_done,
    0 <= text_done <= printlen ->
    exists e,
      chained text_done
        (drawn_ranges
           (calls (print_pages W n printlen r page output text_done)))
      = Some e
      /\ text_done <= e <= printlen.
Proof.
  induction n as [|n IH]; intros page output text_done Ht;
    destruct ((output >=? 0) && (text_done <? printlen)) eqn:E.
  - rewrite print_pages_timeout by exact E. exists text_done. split; [reflexivity|lia].
  - rewrite print_pages_exit by exact E. exists text_done. split; [reflexivity|lia].
  - destruct (print_pages_pass n printlen page output text_done E)
      as (c & Hc & _ & ->).
    destruct (StartPage_ret W page =? 0);
      [exists text_done; split; [reflexivity|lia]|].
    destruct (DrawText_ret W text_done c =? 0).
    { exists (text_done + c). unfold calls. cbn [snd drawn_ranges].
      rewrite chained_first by lia. split; [reflexivity|lia]. }
    destruct (EndPage_ret W page =? 0).
    { exists (text_done + c). unfold calls. cbn [snd drawn_ranges].
      rewrite chained_first by lia. split; [reflexivity|lia]. }
    destruct (IH (page + 1) (EndPage_ret W page) (text_done + c))
      as (e & He & Hr); [lia|].
    exists e. unfold calls at 1. cbn [snd app drawn_ranges].
    rewrite chained_first by lia. split; [exact He|lia].
  - rewrite print_pages_exit by exact E. exists text_done. split; [reflexivity|lia].
Qed.

(** When no [EndPage] reports a negative value and the loop is left by
    its condition, the pages reach the end of the buffer. *)
Lemma print_pages_covers (n : nat) (printlen : Z) :
  (forall p, 0 <= EndPage_ret W p) ->
  forall page output text_done,
    0 <= output ->
    0 <= text_done <= printlen ->
    status (print_pages W n printlen r page output text_done) = Go tt ->
    chained text_done
      (drawn_ranges
         (calls (print_pages W n printlen r page output text_done)))
    = Some printlen.
Proof.
  intros Hend.
  assert (Hexit : forall k page output text_done,
             0 <= output -> 0 <= text_done <= printlen ->
             (output >=? 0) && (text_done <? printlen) = false ->
             chained text_done
               (drawn_ranges
                  (calls (print_pages W k printlen r page output text_done)))
             = Some printlen).
  { intros k page output text_done Ho Ht E.
    rewrite print_pages_exit by exact E. cbn.
    apply andb_false_iff in E as [E|E].
    - rewrite Z.geb_leb in E. apply Z.leb_gt in E. lia.
    - apply Z.ltb_ge in E. f_equal. lia. }
  induction n as [|n IH]; intros page output text_done Ho Ht;
    destruct ((output >=? 0) && (text_done <? printlen)) eqn:E;
    try (intros _; now apply Hexit).
  - rewrite print_pages_timeout by exact E. discriminate.
  - destruct (print_pages_pass n printlen page output text_done E)
      as (c & Hc & _ & ->).
    destruct (StartPage_ret W page =? 0); [discriminate|].
    destruct (DrawText_ret W text_done c =? 0); [discriminate|].
    destruct (EndPage_ret W page =? 0); [discriminate|].
    intros Hs. unfold status at 1 in Hs. cbn [fst] in Hs.
    unfold calls at 1. cbn [snd app drawn_ranges].
    rewrite chained_first by lia.
    apply IH; [apply Hend|lia|exact Hs].
Qed.

(** The page loop leaves with [TCL_ERROR] or goes on to the end of the
    document. *)
Lemma print_pages_status (n : nat) (printlen : Z) :
  forall page output text_done,
    printlen - text_done <= Z.of_nat n ->
    status (print_pages W n printlen r page output text_done) = Go tt
    \/ status (print_pages W n printlen r page output text_done)
       = Return TCL_ERROR.
Proof.
  induction n as [|n IH]; intros page output text_done Hn;
    destruct ((output >=? 0) && (text_done <? printlen)) eqn:E;
    try (rewrite print_pages_exit by exact E; now left).
  - apply andb_true_iff in E as [_ E]. apply Z.ltb_lt in E. lia.
  - destruct (print_pages_pass n printlen page output text_done E)
      as (c & Hc & _ & ->).
    destruct (StartPage_ret W page =? 0); [now right|].
    destruct (DrawText_ret W text_done c =? 0); [now right|].
    destruct (EndPage_ret W page =? 0); [now right|].
    unfold status at 1 3. cbn [fst]. apply IH. lia.
Qed.

(** The page loop makes no call but those of a page. *)
Lemma print_pages_inert (n : nat) (printlen : Z) :
  forall page output text_done,
    forallb page_call
      (calls (print_pages W n printlen r page output text_done)) = true.
Proof.
  induction n as [|n IH]; intros page output text_done;
    destruct ((output >=? 0) && (text_done <? printlen)) eqn:E;
    try (rewrite print_pages_exit by exact E; reflexivity).
  - rewrite print_pages_timeout by exact E. reflexivity.
  - destruct (print_pages_pass n printlen page output text_done E)
      as (c & _ & _ & ->).
    destruct (StartPage_ret W page =? 0); [reflexivity|].
    destruct (DrawText_ret W text_done c =? 0); [reflexivity|].
    destruct (EndPage_ret W page =? 0); [reflexivity|].
    unfold calls at 1. cbn [snd app forallb page_call andb]. apply IH.
Qed.

(** A buffer of at most 2^k characters takes at most k + 1 pages. *)
Lemma print_pages_count (n : nat) (printlen : Z) :
  forall (k : nat) page output text_done,
    printlen - text_done <= 2 ^ Z.of_nat k ->
    (count_calls is_StartPage
       (calls (print_pages W n printlen r page output text_done))
     <= S k)%nat.
Proof.
  induction n as [|n IH]; intros k page output text_done Hk;
    destruct ((output >=? 0) && (text_done <? printlen)) eqn:E;
    try (rewrite print_pages_exit by exact E; cbn; lia).
  - rewrite print_pages_timeout by exact E. cbn. lia.
  - destruct (print_pages_pass n printlen page output text_done E)
      as (c & Hc & Hhalf & ->).
    destruct (StartPage_ret W page =? 0); [cbn; lia|].
    destruct (DrawText_ret W text_done c =? 0); [cbn; lia|].
    destruct (EndPage_ret W page =? 0); [cbn; lia|].
    unfold calls at 1, count_calls.
    cbn [snd app filter is_StartPage List.length].
    apply le_n_S.
    destruct k as [|k].
    + cbn in Hk.
      rewrite print_pages_exit; [cbn; lia|].
      apply andb_false_iff. right. apply Z.ltb_ge. lia.
    + apply (IH k). rewrite Nat2Z.inj_succ, Z.pow_succ_r in Hk by lia. lia.
Qed.

End Pages.

(** ** WinTextPrint *)

(** [WinTextPrint] path by path. *)
Lemma WinTextPrint_paths (W : Win32) (objc : Z) (data : string) :
  WinTextPrint W objc data
  = if negb (objc =? 2) then
      (Return TCL_ERROR, [WrongNumArgs "text"])
    else if negb (PrintDlg_ok W) then
      (Return TCL_OK, [PrintDlg])
    else if negb (pd_hDC W) then
      (Return TCL_ERROR,
       [PrintDlg; AppendResult "can't allocate printer DC"])
    else if undefined_arithmetic W data then
      (Undefined, [PrintDlg; Open PrinterDC])
    else if StartDoc_ret W =? 0 then
      (Return TCL_ERROR,
       [PrintDlg; Open PrinterDC; StartDoc;
        AppendResult "unable to start document"])
    else
      after_pages
        (print_pages W (String.length data) (Z.of_nat (String.length data))
                     (page_rect W) (pd_nMinPage W) (StartDoc_ret W) 0).
Proof.
  unfold WinTextPrint. rewrite page_count_eq.
  unfold call, answer, when, ret, leave, after_pages.
  destruct (negb (objc =? 2)); [reflexivity|].
  destruct (PrintDlg_ok W); [|reflexivity].
  destruct (pd_hDC W); [|reflexivity].
  destruct (undefined_arithmetic W data); [reflexivity|].
  cbv beta iota zeta delta [bind app negb orb].
  destruct (StartDoc_ret W =? 0); [reflexivity|].
  now destruct (print_pages _ _ _ _ _ _ _) as [[[]| | |] l].
Qed.

Lemma drawn_ranges_app (l1 l2 : list Call) :
  drawn_ranges (l1 ++ l2) = drawn_ranges l1 ++ drawn_ranges l2.
Proof.
  induction l1 as [|c l1 IH]; [reflexivity|].
  destruct c; cbn; now rewrite ?IH.
Qed.

Lemma drawn_ranges_after_pages (pages : M unit) :
  drawn_ranges (calls (after_pages pages)) = drawn_ranges (calls pages).
Proof.
  destruct pages as [[[]|st| |] l]; unfold after_pages, calls; cbn [snd];
    rewrite ?drawn_ranges_app; cbn; now rewrite ?app_nil_r.
Qed.

Lemma count_calls_app (p : Call -> bool) (l1 l2 : list Call) :
  count_calls p (l1 ++ l2) = (count_calls p l1 + count_calls p l2)%nat.
Proof. unfold count_calls. now rewrite filter_app, length_app. Qed.

Lemma pages_fuel (data : string) :
  Z.of_nat (String.length data) - 0 <= Z.of_nat (String.length data).
Proof. lia. Qed.

(** X13.  Whatever the system answers, the stretches of text that
    [WinTextPrint] draws follow one another through the buffer from its
    first character: each page begins where the page before ended and
    holds at least one character, and no page reaches past the end of the
    buffer.  No character is drawn twice and none is skipped between two
    pages. *)
Theorem text_pages_are_contiguous (W : Win32) (objc : Z) (data : string) :
  exists e,
    chained 0 (drawn_ranges (calls (WinTextPrint W objc data))) = Some e
    /\ 0 <= e <= Z.of_nat (String.length data).
Proof.
  rewrite WinTextPrint_paths.
  repeat match goal with
         | |- context [if ?b then _ else _] =>
             destruct b; [exists 0; split; [reflexivity|lia]|]
         end.
  rewrite drawn_ranges_after_pages.
  apply print_pages_chained. lia.
Qed.

(** X14.  When [WinTextPrint] returns [TCL_OK] after a print dialog that
    returned [TRUE], and neither [StartDoc] nor any [EndPage] reported a
    negative value, the pages drawn cover the buffer from its first to
    its last character. *)
Theorem text_is_printed_whole (W : Win32) (objc : Z) (data : string) :
  status (WinTextPrint W objc data) = Return TCL_OK ->
  PrintDlg_ok W = true ->
  0 <= StartDoc_ret W ->
  (forall p, 0 <= EndPage_ret W p) ->
  chained 0 (drawn_ranges (calls (WinTextPrint W objc data)))
  = Some (Z.of_nat (String.length data)).
Proof.
  rewrite WinTextPrint_paths. intros Hs Hd Hdoc Hend. revert Hs.
  rewrite Hd. cbn [negb].
  repeat match goal with
         | |- context [if ?b then _ else _] => destruct b; [discriminate|]
         end.
  rewrite drawn_ranges_after_pages. intros Hs.
  apply print_pages_covers; [exact Hend|exact Hdoc|lia|].
  destruct (print_pages_status W (page_rect W) (String.length data)
              (Z.of_nat (String.length data)) (pd_nMinPage W)
              (StartDoc_ret W) 0 (pages_fuel data)) as [H|H]; [exact H|].
  revert Hs H. unfold status, after_pages.
  destruct (print_pages _ _ _ _ _ _ _) as [[[]|st| |] l]; cbn;
    congruence.
Qed.

(** X15.  [WinTextPrint] starts at most log2(n) + 1 pages (log2 rounded
    up) for a buffer of n characters, whatever the size of the page and
    of the text on it: every page takes all that is left or half of it,
    and the one character left when there is one. *)
Theorem text_pages_at_most_log2 (W : Win32) (objc : Z) (data : string) :
  Z.of_nat (count_calls is_StartPage (calls (WinTextPrint W objc data)))
  <= Z.log2_up (Z.of_nat (String.length data)) + 1.
Proof.
  pose proof (Z.log2_up_nonneg (Z.of_nat (String.length data))) as Hnn.
  rewrite WinTextPrint_paths.
  repeat match goal with
         | |- context [if ?b then _ else _] => destruct b; [cbn; lia|]
         end.
  set (len := Z.of_nat (String.length data)) in *.
  assert (Hlen : len - 0 <= 2 ^ Z.of_nat (Z.to_nat (Z.log2_up len))).
  { rewrite Z2Nat.id by exact Hnn.
    destruct (Z.eq_dec len 0) as [->|Hz]; [cbn; lia|].
    pose proof (Z.log2_log2_up_spec len ltac:(lia)). lia. }
  pose proof (print_pages_count W (page_rect W) (String.length data) len
                (Z.to_nat (Z.log2_up len)) (pd_nMinPage W) (StartDoc_ret W)
                0 Hlen) as Hc.
  assert (Ha : forall pages : M unit,
             count_calls is_StartPage (calls (after_pages pages))
             = count_calls is_StartPage (calls pages)).
  { intros [[[]|st| |] l]; unfold after_pages, calls; cbn [snd];
      rewrite ?count_calls_app; cbn; lia. }
  rewrite Ha. lia.
Qed.

(** X16.  [WinTextPrint] never runs out of the bound on its page loop:
    it returns [TCL_OK] or [TCL_ERROR], unless the arithmetic of lines
    298-305 has no defined result, which is the case exactly when it has
    a printer DC and a divisor (the average character width, the line
    height, the number of lines per page) is zero or a sum, a difference
    or a quotient of that arithmetic is not an [int], as for
    [INT_MIN / -1]. *)
Theorem text_print_returns (W : Win32) (objc : Z) (data : string) :
  (status (WinTextPrint W objc data) = Undefined
   \/ status (WinTextPrint W objc data) = Return TCL_OK
   \/ status (WinTextPrint W objc data) = Return TCL_ERROR)
  /\ (status (WinTextPrint W objc data) = Undefined <->
      objc = 2 /\ PrintDlg_ok W = true /\ pd_hDC W = true
      /\ undefined_arithmetic W data = true).
Proof.
  rewrite WinTextPrint_paths.
  destruct (Z.eqb_spec objc 2) as [Ho|Ho]; cbn [negb];
    [|split; [auto|split; [discriminate|tauto]]].
  destruct (PrintDlg_ok W); cbn [negb];
    [|split; [auto|split; [discriminate|intuition discriminate]]].
  destruct (pd_hDC W); cbn [negb];
    [|split; [auto|split; [discriminate|intuition discriminate]]].
  destruct (undefined_arithmetic W data); [split; [auto|tauto]|].
  destruct (StartDoc_ret W =? 0);
    [split; [auto|split; [discriminate|intuition discriminate]]|].
  destruct (print_pages_status W (page_rect W) (String.length data)
              (Z.of_nat (String.length data)) (pd_nMinPage W)
              (StartDoc_ret W) 0 (pages_fuel data)) as [H|H];
    revert H; unfold status, after_pages;
    destruct (print_pages _ _ _ _ _ _ _) as [[[]|st| |] l]; cbn;
    intros H; try discriminate H;
    (split; [first [injection H as ->|idtac]; auto
            |split; [discriminate|intuition discriminate]]).
Qed.

Lemma times_opened_app (h : Handle) (l1 l2 : list Call) :
  times_opened h (l1 ++ l2) = (times_opened h l1 + times_opened h l2)%nat.
Proof. unfold times_opened. now rewrite filter_app, length_app. Qed.

Lemma times_closed_app (h : Handle) (l1 l2 : list Call) :
  times_closed h (l1 ++ l2) = (times_closed h l1 + times_closed h l2)%nat.
Proof. unfold times_closed. now rewrite filter_app, length_app. Qed.

(** The calls of a page obtain and release nothing, and neither start
    nor end a document. *)
Lemma page_calls_inert (l : list Call) :
  forallb page_call l = true ->
  (forall h, times_opened h l = 0%nat /\ times_closed h l = 0%nat)
  /\ count_calls is_EndDoc l = 0%nat
  /\ count_calls is_StartDoc l = 0%nat.
Proof.
  induction l as [|c l IH]; [now cbn|].
  cbn [forallb]. intros H. apply andb_true_iff in H as [Hc Hl].
  destruct (IH Hl) as (H1 & H2 & H3).
  unfold times_opened, times_closed, count_calls in *.
  destruct c; try discriminate Hc; cbn; auto.
Qed.

Lemma leaked_around_pages (pre l post : list Call) :
  forallb page_call l = true ->
  leaked (pre ++ l ++ post) = leaked (pre ++ post).
Proof.
  intros H. destruct (page_calls_inert l H) as (Ht & _).
  unfold leaked. apply filter_ext. intros h.
  rewrite !times_opened_app, !times_closed_app.
  destruct (Ht h) as [-> ->]. reflexivity.
Qed.

(** X17.  [WinTextPrint] ends the document and deletes the printer DC,
    once each, exactly when it returns [TCL_OK] after a print dialog that
    returned [TRUE]: it has then started one document, and no handle is
    left held.  On every other outcome, the [TCL_OK] returned when the
    dialog did not return [TRUE] included, no document is ended and no DC
    is deleted: a failure after the dialog has returned a DC leaves that
    DC held, and a failure after [StartDoc] leaves the document open. *)
Theorem text_print_cleans_up_only_on_success
        (W : Win32) (objc : Z) (data : string) :
  let m := WinTextPrint W objc data in
  if returned_ok m && PrintDlg_ok W then
    count_calls is_StartDoc (calls m) = 1%nat
    /\ count_calls is_EndDoc (calls m) = 1%nat
    /\ times_opened PrinterDC (calls m) = 1%nat
    /\ times_closed PrinterDC (calls m) = 1%nat
    /\ leaked (calls m) = []
  else
    count_calls is_EndDoc (calls m) = 0%nat
    /\ times_closed PrinterDC (calls m) = 0%nat
    /\ leaked (calls m)
       = (if (objc =? 2) && PrintDlg_ok W && pd_hDC W
          then [PrinterDC] else []).
Proof.
  cbv zeta. unfold returned_ok. rewrite WinTextPrint_paths.
  destruct (objc =? 2); cbn [negb andb]; [|now vm_compute].
  destruct (PrintDlg_ok W); cbn [negb andb]; [|now vm_compute].
  destruct (pd_hDC W); cbn [negb andb]; [|now vm_compute].
  destruct (undefined_arithmetic W data); [now vm_compute|].
  destruct (StartDoc_ret W =? 0); [now vm_compute|].
  pose proof (print_pages_inert W (page_rect W) (String.length data)
                (Z.of_nat (String.length data)) (pd_nMinPage W)
                (StartDoc_ret W) 0) as Hi.
  destruct (print_pages_status W (page_rect W) (String.length data)
              (Z.of_nat (String.length data)) (pd_nMinPage W)
              (StartDoc_ret W) 0 (pages_fuel data)) as [H|H];
    revert H Hi; unfold status, calls, after_pages;
    destruct (print_pages _ _ _ _ _ _ _) as [[[]|st| |] l]; cbn [fst snd];
    intros H Hi; try discriminate H.
  - destruct (page_calls_inert l Hi) as (Ht & He & Hs).
    cbn [andb].
    rewrite !count_calls_app, !times_opened_app, !times_closed_app, He, Hs.
    destruct (Ht PrinterDC) as [-> ->].
    repeat split.
    rewrite leaked_around_pages by exact Hi. reflexivity.
  - injection H as ->. cbn [andb].
    destruct (page_calls_inert l Hi) as (Ht & He & Hs).
    rewrite times_closed_app, count_calls_app, He.
    destruct (Ht PrinterDC) as [_ ->].
    repeat split.
    rewrite <- (app_nil_r l), leaked_around_pages by exact Hi. reflexivity.
Qed.

(** X18.  Whenever [WinTextPrint] returns [TCL_ERROR] it has left a
    message in the interpreter result: the usage message, or the name of
    the step that failed. *)
Theorem text_error_leaves_message (W : Win32) (objc : Z) (data : string) :
  status (WinTextPrint W objc data) = Return TCL_ERROR ->
  exists msg rest, messages (calls (WinTextPrint W objc data)) = msg :: rest.
Proof.
  intros H. pose proof (WinTextPrint_error_has_message W objc data H) as Hm.
  destruct (messages (calls (WinTextPrint W objc data))) as [|msg rest];
    [contradiction|eauto].
Qed.

Section Brackets.

Variable W : Win32.
Variable r : RECT.

Lemma print_pages_brackets (n : nat) (printlen : Z) :
  forall page output text_done,
    let l := calls (print_pages W n printlen r page output text_done) in
    (count_calls is_EndPage l <= count_calls is_StartPage l
     <= count_calls is_EndPage l + 1)%nat
    /\ (status (print_pages W n printlen r page output text_done) = Go tt ->
        count_calls is_StartPage l = count_calls is_EndPage l
        /\ List.length (drawn_ranges l) = count_calls is_StartPage l).
Proof.
  induction n as [|n IH]; intros page output text_done;
    destruct ((output >=? 0) && (text_done <? printlen)) eqn:E;
    try (rewrite print_pages_exit by exact E; cbn; split; [lia|auto]).
  - rewrite print_pages_timeout by exact E. cbn. split; [lia|discriminate].
  - destruct (print_pages_pass W r n printlen page output text_done E)
      as (c & _ & _ & ->).
    destruct (StartPage_ret W page =? 0);
      [cbn; split; [lia|discriminate]|].
    destruct (DrawText_ret W text_done c =? 0);
      [cbn; split; [lia|discriminate]|].
    destruct (EndPage_ret W page =? 0);
      [cbn; split; [lia|discriminate]|].
    specialize (IH (page + 1) (EndPage_ret W page) (text_done + c)).
    cbv zeta in IH. destruct IH as [IH1 IH2].
    set (rest := print_pages W n printlen r (page + 1) (EndPage_ret W page)
                             (text_done + c)) in *.
    unfold calls, status, count_calls in *.
    cbn [fst snd app filter is_StartPage is_EndPage List.length drawn_ranges].
    split; [lia|].
    intros Hs. destruct (IH2 Hs) as [H1 H2]. lia.
Qed.

End Brackets.

(** X22.  In the log of [WinTextPrint] the pages are bracketed: at every
    moment at most one page is started and not ended, and when the
    command returns [TCL_OK] every page started has been drawn on once
    and ended.  An error return leaves at most one page open. *)
Theorem text_pages_are_bracketed (W : Win32) (objc : Z) (data : string) :
  let l := calls (WinTextPrint W objc data) in
  (count_calls is_EndPage l <= count_calls is_StartPage l
   <= count_calls is_EndPage l + 1)%nat
  /\ (status (WinTextPrint W objc data) = Return TCL_OK ->
      count_calls is_StartPage l = count_calls is_EndPage l
      /\ List.length (drawn_ranges l) = count_calls is_StartPage l).
Proof.
  cbv zeta. rewrite WinTextPrint_paths.
  repeat match goal with
         | |- context [if ?b then _ else _] =>
             destruct b; [cbn; split; [lia|auto]|]
         end.
  pose proof (print_pages_brackets W (page_rect W) (String.length data)
                (Z.of_nat (String.length data)) (pd_nMinPage W)
                (StartDoc_ret W) 0) as H.
  cbv zeta in H. destruct H as [H1 H2].
  pose proof (print_pages_status W (page_rect W) (String.length data)
                (Z.of_nat (String.length data)) (pd_nMinPage W)
                (StartDoc_ret W) 0 (pages_fuel data)) as Hst.
  revert H1 H2 Hst. unfold status, calls, after_pages.
  destruct (print_pages _ _ _ _ _ _ _) as [[[]|st| |] l]; cbn [fst snd];
    intros H1 H2 Hst;
    rewrite ?count_calls_app, ?drawn_ranges_app, ?length_app;
    cbn; rewrite ?Nat.add_0_r; split; try lia; try discriminate.
  - intros _. destruct (H2 eq_refl). lia.
  - destruct Hst as [Hst|Hst]; [discriminate|].
    injection Hst as ->. discriminate.
Qed.

(** ** Instances *)

Import Samples.

Lemma text_is_printed_whole_witness :
  chained 0 (drawn_ranges (calls (WinTextPrint (working long_text) 2
                                               long_text)))
  = Some 400.
Proof.
  apply (text_is_printed_whole (working long_text) 2 long_text).
  - vm_compute. reflexivity.
  - reflexivity.
  - cbn. lia.
  - intros p. cbn. lia.
Defined.

Lemma text_error_leaves_message_witness :
  exists msg rest,
    messages (calls (WinTextPrint (failing_spooler long_text 0 1) 2
                                  long_text))
    = msg :: rest.
Proof.
  apply text_error_leaves_message. vm_compute. reflexivity.
Defined.

End PrintMore.
